(** * Verification of the time converter (main.py)

    A shallow embedding of the time-parsing, conversion and arithmetic
    functions of [main.py], and the properties its specification states
    about them.

    Conventions of the model.
    - A Python [str] is a Rocq [string], one character per code point, so
      the model covers text whose code points are below 256.
    - A Python [int] is a [Z].
    - Every function of [main.py] is wrapped by the decorator
      [validate_time], which logs, shows a dialog and returns [None] when
      the body raises.  A body is a computation in the monad [Py]: it
      carries the trace of log records and dialogs and ends in a value or
      in an exception.  [f_body] is the undecorated body of [f] and [f] is
      the decorated function, as the module exports it.
    - The messages of the exceptions raised by the Python library are not
      modelled, only their classes. *)

From Stdlib Require Import ZArith List Bool Lia Ascii String.
From Stdlib Require Import DecimalString.
Import ListNotations.

Local Open Scope string_scope.
Local Open Scope Z_scope.

(** ** Constants of the module *)

Definition HOURS_IN_DAY : Z := 24.
Definition HOURS_IN_HALF_DAY : Z := 12.
Definition MINUTES_IN_HOUR : Z := 60.
Definition SECONDS_IN_MINUTE : Z := 60.

(** ** Exceptions, events and the monad of bodies *)

Inductive exn : Type :=
| TimeFormatError (msg : string)
| ValueError
| AttributeError
| TypeError
| OverflowError.

Inductive event : Type :=
| LogInfo (fname : string)
| LogError (what : string) (fname : string) (e : exn)
| ShowError (title : string) (e : exn).

Definition Py (A : Type) : Type := (list event * (exn + A))%type.

Definition ret {A : Type} (a : A) : Py A := ([], inr a).

Definition raise {A : Type} (e : exn) : Py A := ([], inl e).

Definition bind {A B : Type} (m : Py A) (f : A -> Py B) : Py B :=
  match m with
  | (t, inl e) => (t, inl e)
  | (t, inr a) => let (t', r) := f a in ((t ++ t')%list, r)
  end.

Notation "x <- m ;; k" := (bind m (fun x => k))
  (at level 61, m at next level, right associativity).

(** The outcome of a body, without its trace. *)
Definition outcome {A : Type} (m : Py A) : exn + A := snd m.

(** The value a decorated function returns ([None] of Python is [None]). *)
Definition returned {A : Type} (m : Py (option A)) : option A :=
  match snd m with
  | inr (Some a) => Some a
  | _ => None
  end.

(** The decorator.  [fname] is [func.__name__]. *)
Definition validate_time {A : Type} (fname : string) (body : Py A)
  : Py (option A) :=
  match body with
  | (t, inr a) => ((t ++ [LogInfo fname])%list, inr (Some a))
  | (t, inl (TimeFormatError msg)) =>
      ((t ++ [LogError "Time format error" fname (TimeFormatError msg);
              ShowError "Time Format Error" (TimeFormatError msg)])%list,
       inr None)
  | (t, inl e) =>
      ((t ++ [LogError "Unexpected error" fname e;
              ShowError "Unexpected Error" e])%list,
       inr None)
  end.

(** Attribute access on the result of a decorated call: [None.attr]
    raises [AttributeError]. *)
Definition getattr {A B : Type} (o : option A) (f : A -> B) : Py B :=
  match o with
  | Some a => ret (f a)
  | None => raise AttributeError
  end.

(** ** The library functions the module calls *)

(** [str.split(sep)] for a one-character separator. *)
Fixpoint split (sep : ascii) (s : string) : list string :=
  match s with
  | EmptyString => [EmptyString]
  | String c s' =>
      if Ascii.eqb c sep then EmptyString :: split sep s'
      else match split sep s' with
           | [] => [String c EmptyString]
           | p :: ps => String c p :: ps
           end
  end.

(** [int(s)] on a [str], base 10.  White space around the literal is
    skipped, a sign is allowed, single underscores may separate digits, and
    a literal of more than [int_max_str_digits] digits is refused. *)
Definition int_max_str_digits : N := 4300.

Definition is_int_space (c : ascii) : bool :=
  let n := N_of_ascii c in
  (((9 <=? n) && (n <=? 13)) || (n =? 32) || (n =? 133) || (n =? 160))%N.

Definition digit_val (c : ascii) : option Z :=
  let n := N_of_ascii c in
  if ((48 <=? n) && (n <=? 57))%N then Some (Z.of_N n - 48) else None.

Fixpoint lstrip (s : string) : string :=
  match s with
  | EmptyString => EmptyString
  | String c s' => if is_int_space c then lstrip s' else s
  end.

Fixpoint all_space (s : string) : bool :=
  match s with
  | EmptyString => true
  | String c s' => is_int_space c && all_space s'
  end.

(** The digits after the first one: value so far, number of digits so far,
    and the text left where the scan stops. *)
Fixpoint int_digits (s : string) (acc : Z) (n : N) : Z * N * string :=
  match s with
  | EmptyString => (acc, n, EmptyString)
  | String c s' =>
      match digit_val c with
      | Some d => int_digits s' (10 * acc + d) (n + 1)%N
      | None =>
          if Ascii.eqb c "_" then
            match s' with
            | String c2 s'' =>
                match digit_val c2 with
                | Some d => int_digits s'' (10 * acc + d) (n + 1)%N
                | None => (acc, n, s)
                end
            | EmptyString => (acc, n, s)
            end
          else (acc, n, s)
      end
  end.

Definition int_unsigned (s : string) : option Z :=
  match s with
  | EmptyString => None
  | String c s' =>
      match digit_val c with
      | None => None
      | Some d =>
          let '(v, n, rest) := int_digits s' d 1%N in
          if all_space rest && (n <=? int_max_str_digits)%N
          then Some v else None
      end
  end.

Definition int_opt (s : string) : option Z :=
  match lstrip s with
  | String "+" s' => int_unsigned s'
  | String "-" s' => option_map Z.opp (int_unsigned s')
  | s' => int_unsigned s'
  end.

Definition int (s : string) : Py Z :=
  match int_opt s with
  | Some v => ret v
  | None => raise ValueError
  end.

(** [map(int, parts)] consumed by a tuple assignment: the fields are
    converted from left to right and the first failure is raised. *)
Fixpoint map_int (parts : list string) : Py (list Z) :=
  match parts with
  | [] => ret []
  | p :: ps => v <- int p ;; vs <- map_int ps ;; ret (v :: vs)
  end.

(** [str(n)] and the format specifications [d] and [02d]. *)
Definition str (n : Z) : string := NilZero.string_of_int (Z.to_int n).

Definition format_02d (n : Z) : string :=
  let s := str n in
  if (String.length s <? 2)%nat then "0" ++ s else s.

(** ** The data model *)

Record Time : Type := mkTime {
  hours : Z;
  minutes : Z;
  seconds : Z;
  timezone : string
}.

(** The dataclass constructor with the default time zone. *)
Definition Time_ (h m s : Z) : Time := mkTime h m s "UTC".

(** ** parse_time *)

Definition invalid_format_msg : string :=
  "Invalid time format. Please use HH:MM or HH:MM:SS.".

Definition out_of_range_msg : string := "Time values out of valid range.".

Definition in_range (h m s : Z) : bool :=
  (0 <=? h) && (h <? HOURS_IN_DAY) && (0 <=? m) && (m <? MINUTES_IN_HOUR)
  && (0 <=? s) && (s <? SECONDS_IN_MINUTE).

Definition check_range (h m s : Z) : Py Time :=
  if negb (in_range h m s)
  then raise (TimeFormatError out_of_range_msg)
  else ret (Time_ h m s).

Definition parse_time_body (time_str : string) : Py Time :=
  let time_parts := split ":" time_str in
  match time_parts with
  | [_; _] =>
      vs <- map_int time_parts ;;
      match vs with
      | [h; m] => check_range h m 0
      | _ => raise ValueError
      end
  | [_; _; _] =>
      vs <- map_int time_parts ;;
      match vs with
      | [h; m; s] => check_range h m s
      | _ => raise ValueError
      end
  | _ => raise (TimeFormatError invalid_format_msg)
  end.

Definition parse_time (time_str : string) : Py (option Time) :=
  validate_time "parse_time" (parse_time_body time_str).

(** ** military_to_standard_time *)

Definition hms (h m s : Z) : string :=
  format_02d h ++ ":" ++ format_02d m ++ ":" ++ format_02d s.

Definition military_to_standard_time_body
  (military_time : string) (use_24h : bool) : Py string :=
  time <- parse_time military_time ;;
  if use_24h then
    h <- getattr time hours ;;
    m <- getattr time minutes ;;
    s <- getattr time seconds ;;
    ret (hms h m s)
  else
    h <- getattr time hours ;;
    let period := if h <? HOURS_IN_HALF_DAY then "AM" else "PM" in
    let standard_hours :=
      if h =? 0 then HOURS_IN_HALF_DAY
      else if h >? HOURS_IN_HALF_DAY then h - HOURS_IN_HALF_DAY
      else h in
    m <- getattr time minutes ;;
    s <- getattr time seconds ;;
    ret (str standard_hours ++ ":" ++ format_02d m ++ ":" ++ format_02d s
         ++ " " ++ period).

Definition military_to_standard_time
  (military_time : string) (use_24h : bool) : Py (option string) :=
  validate_time "military_to_standard_time"
    (military_to_standard_time_body military_time use_24h).

(** ** Regular expressions

    The fragment of [re] that the pattern of [standard_to_military_time]
    uses, with the backtracking of [re]: alternatives are tried from left
    to right and [?] is greedy.  [Eos] (written [\Z]) is not used by the
    module; it serves to write down the grammar of the specification. *)

Inductive regex : Type :=
| Lit (c : ascii)
| Range (lo hi : ascii)
| Cat (r1 r2 : regex)
| Alt (r1 r2 : regex)
| Opt (r : regex)
| Group (n : nat) (r : regex)
| Bol
| Eol
| Eos.

Declare Scope regex_scope.
Delimit Scope regex_scope with re.
Bind Scope regex_scope with regex.
Infix "@" := Cat (at level 30, right associativity) : regex_scope.
Infix "|||" := Alt (at level 50, left associativity) : regex_scope.

(** [str.lower] on one character, for code points below 256. *)
Definition lower (c : ascii) : ascii :=
  let n := N_of_ascii c in
  if (((65 <=? n) && (n <=? 90))
      || ((192 <=? n) && (n <=? 222) && negb (n =? 215)))%N
  then ascii_of_N (n + 32) else c.

(** A literal under the flag [IGNORECASE] ([ic]). *)
Definition lit_matches (ic : bool) (c a : ascii) : bool :=
  if ic then Ascii.eqb (lower a) (lower c) else Ascii.eqb a c.

(** A character range.  The ranges of the patterns below hold digits, which
    have no case, so the flag does not change them. *)
Definition range_matches (lo hi a : ascii) : bool :=
  ((N_of_ascii lo <=? N_of_ascii a) && (N_of_ascii a <=? N_of_ascii hi))%N.

(** [$] without [MULTILINE]: the end of the text, or just before a newline
    that ends the text. *)
Definition newline : ascii := ascii_of_N 10.

Definition at_eol (s : string) : bool :=
  match s with
  | EmptyString => true
  | String c EmptyString => Ascii.eqb c newline
  | _ => false
  end.

Definition at_eos (s : string) : bool :=
  match s with
  | EmptyString => true
  | _ => false
  end.

(** The groups that took part in a match, the last one set first. *)
Definition caps : Type := list (nat * string).

Fixpoint group (n : nat) (g : caps) : option string :=
  match g with
  | [] => None
  | (i, s) :: g' => if Nat.eqb i n then Some s else group n g'
  end.

(** The matcher, in continuation-passing style: [run ic r pos s g k] matches
    [r] at offset [pos], where the text left is [s], and hands the offset
    after the match, the text matched, the text left and the groups to [k];
    when [k] fails the next way of matching [r] is tried. *)
Definition cont : Type := nat -> string -> string -> caps -> option caps.

Fixpoint run (ic : bool) (r : regex) (pos : nat) (s : string) (g : caps)
  (k : cont) {struct r} : option caps :=
  match r with
  | Lit c =>
      match s with
      | String a s' =>
          if lit_matches ic c a then k (S pos) (String a EmptyString) s' g
          else None
      | EmptyString => None
      end
  | Range lo hi =>
      match s with
      | String a s' =>
          if range_matches lo hi a then k (S pos) (String a EmptyString) s' g
          else None
      | EmptyString => None
      end
  | Cat r1 r2 =>
      run ic r1 pos s g
        (fun p1 c1 s1 g1 =>
           run ic r2 p1 s1 g1 (fun p2 c2 s2 g2 => k p2 (c1 ++ c2) s2 g2))
  | Alt r1 r2 =>
      match run ic r1 pos s g k with
      | Some c => Some c
      | None => run ic r2 pos s g k
      end
  | Opt r1 =>
      match run ic r1 pos s g k with
      | Some c => Some c
      | None => k pos EmptyString s g
      end
  | Group n r1 =>
      run ic r1 pos s g (fun p1 c1 s1 g1 => k p1 c1 s1 ((n, c1) :: g1))
  | Bol => if Nat.eqb pos 0 then k pos EmptyString s g else None
  | Eol => if at_eol s then k pos EmptyString s g else None
  | Eos => if at_eos s then k pos EmptyString s g else None
  end.

(** [pattern.match(s)]: a match that starts at the beginning of [s]. *)
Definition final : cont := fun _ _ _ g => Some g.

Definition re_match (ic : bool) (r : regex) (s : string) : option caps :=
  run ic r 0 s [] final.

(** ** standard_to_military_time *)

(** [^(1[0-2]|0?[1-9]):([0-5][0-9]):?([0-5]?[0-9])? ?(AM|PM)$] *)
Definition standard_time_pattern : regex :=
  (Bol
   @ Group 1 (Lit "1" @ Range "0" "2" ||| Opt (Lit "0") @ Range "1" "9")
   @ Lit ":"
   @ Group 2 (Range "0" "5" @ Range "0" "9")
   @ Opt (Lit ":")
   @ Opt (Group 3 (Opt (Range "0" "5") @ Range "0" "9"))
   @ Opt (Lit " ")
   @ Group 4 (Lit "A" @ Lit "M" ||| Lit "P" @ Lit "M")
   @ Eol)%re.

Definition invalid_standard_msg : string :=
  "Invalid standard time format. Use HH:MM:SS AM/PM.".

(** [int(x)] where [x] is a group of a match: a group that took no part is
    [None], on which [int] raises [TypeError]. *)
Definition int_group (x : option string) : Py Z :=
  match x with
  | Some t => int t
  | None => raise TypeError
  end.

(** [str.upper], one character.  It is applied to the text of group 4 only,
    which holds ASCII letters. *)
Definition upper_char (c : ascii) : ascii :=
  let n := N_of_ascii c in
  if ((97 <=? n) && (n <=? 122))%N then ascii_of_N (n - 32) else c.

Fixpoint upper (s : string) : string :=
  match s with
  | EmptyString => EmptyString
  | String c s' => String (upper_char c) (upper s')
  end.

Definition upper_group (x : option string) : Py string :=
  match x with
  | Some t => ret (upper t)
  | None => raise AttributeError
  end.

Definition standard_to_military_time_body (standard_time : string)
  : Py string :=
  match re_match true standard_time_pattern standard_time with
  | None => raise (TimeFormatError invalid_standard_msg)
  | Some g =>
      h <- int_group (group 1 g) ;;
      m <- int_group (group 2 g) ;;
      s <- match group 3 g with
           | None | Some EmptyString => ret 0
           | Some t => int t
           end ;;
      period <- upper_group (group 4 g) ;;
      let h' :=
        if String.eqb period "PM" && negb (h =? HOURS_IN_HALF_DAY)
        then h + HOURS_IN_HALF_DAY
        else if String.eqb period "AM" && (h =? HOURS_IN_HALF_DAY)
        then 0
        else h in
      ret (hms h' m s)
  end.

Definition standard_to_military_time (standard_time : string)
  : Py (option string) :=
  validate_time "standard_to_military_time"
    (standard_to_military_time_body standard_time).

(** ** The part of [datetime] the module uses

    A [datetime] is the proleptic Gregorian ordinal of its date and its
    time of day; a [timedelta] is normalised to days and seconds of the day
    (all durations of the module are whole seconds). *)

Record datetime : Type := mkDatetime {
  dt_ordinal : Z;
  dt_hour : Z;
  dt_minute : Z;
  dt_second : Z
}.

Record timedelta : Type := mkTimedelta {
  td_days : Z;
  td_seconds : Z
}.

Definition days_before_year (y : Z) : Z :=
  (y - 1) * 365 + (y - 1) / 4 - (y - 1) / 100 + (y - 1) / 400.

Definition is_leap (y : Z) : bool :=
  (y mod 4 =? 0) && (negb (y mod 100 =? 0) || (y mod 400 =? 0)).

Definition days_in_month (y m : Z) : Z :=
  if (m =? 2) && is_leap y then 29
  else nth (Z.to_nat m) [0; 31; 28; 31; 30; 31; 30; 31; 31; 30; 31; 30; 31] 0.

Definition days_before_month (y m : Z) : Z :=
  fold_right Z.add 0
    (map (days_in_month y) (map Z.of_nat (seq 1 (Z.to_nat m - 1)))).

Definition ymd2ord (y m d : Z) : Z :=
  days_before_year y + days_before_month y m + d.

Definition MINYEAR : Z := 1.
Definition MAXYEAR : Z := 9999.
Definition MAXORDINAL : Z := days_before_year (MAXYEAR + 1).
Definition MAX_DELTA_DAYS : Z := 999999999.
Definition SECONDS_PER_DAY : Z := 86400.

(** [datetime(y, mo, d, h, mi, s)] *)
Definition datetime_new (y mo d h mi s : Z) : Py datetime :=
  if (MINYEAR <=? y) && (y <=? MAXYEAR) && (1 <=? mo) && (mo <=? 12)
     && (1 <=? d) && (d <=? days_in_month y mo)
     && (0 <=? h) && (h <? 24) && (0 <=? mi) && (mi <? 60)
     && (0 <=? s) && (s <? 60)
  then ret (mkDatetime (ymd2ord y mo d) h mi s)
  else raise ValueError.

(** [timedelta(days=, hours=, minutes=, seconds=)] on integers. *)
Definition timedelta_new (days hrs mins secs : Z) : Py timedelta :=
  let total := days * SECONDS_PER_DAY + hrs * 3600 + mins * 60 + secs in
  let d := total / SECONDS_PER_DAY in
  if (- MAX_DELTA_DAYS <=? d) && (d <=? MAX_DELTA_DAYS)
  then ret (mkTimedelta d (total mod SECONDS_PER_DAY))
  else raise OverflowError.

(** [dt + delta] ([factor] 1) and [dt - delta] ([factor] -1). *)
Definition add_datetime_timedelta (dt : datetime) (delta : timedelta)
  (factor : Z) : Py datetime :=
  let secs := dt_hour dt * 3600 + dt_minute dt * 60 + dt_second dt
              + td_seconds delta * factor in
  let day := dt_ordinal dt + td_days delta * factor + secs / SECONDS_PER_DAY in
  let sod := secs mod SECONDS_PER_DAY in
  if (1 <=? day) && (day <=? MAXORDINAL)
  then ret (mkDatetime day (sod / 3600) (sod mod 3600 / 60) (sod mod 60))
  else raise OverflowError.

(** [dt1 - dt2] *)
Definition datetime_sub (dt1 dt2 : datetime) : Py timedelta :=
  timedelta_new (dt_ordinal dt1 - dt_ordinal dt2)
    (dt_hour dt1 - dt_hour dt2) (dt_minute dt1 - dt_minute dt2)
    (dt_second dt1 - dt_second dt2).

(** [-delta] and [abs(delta)] *)
Definition timedelta_neg (delta : timedelta) : Py timedelta :=
  timedelta_new (- td_days delta) 0 0 (- td_seconds delta).

Definition timedelta_abs (delta : timedelta) : Py timedelta :=
  if td_days delta <? 0 then timedelta_neg delta else ret delta.

(** [dt1 < dt2] *)
Definition datetime_lt (dt1 dt2 : datetime) : bool :=
  let key dt := dt_hour dt * 3600 + dt_minute dt * 60 + dt_second dt in
  (dt_ordinal dt1 <? dt_ordinal dt2)
  || ((dt_ordinal dt1 =? dt_ordinal dt2) && (key dt1 <? key dt2)).

(** The time of [time], on the first of January 2000. *)
Definition anchor (time : option Time) : Py datetime :=
  h <- getattr time hours ;;
  m <- getattr time minutes ;;
  s <- getattr time seconds ;;
  datetime_new 2000 1 1 h m s.

(** ** The arithmetic functions *)

Definition add_time_body (time_str : string) (hrs mins secs : Z)
  : Py string :=
  time <- parse_time time_str ;;
  dt <- anchor time ;;
  delta <- timedelta_new 0 hrs mins secs ;;
  dt <- add_datetime_timedelta dt delta 1 ;;
  ret (hms (dt_hour dt) (dt_minute dt) (dt_second dt)).

Definition add_time (time_str : string) (hrs mins secs : Z)
  : Py (option string) :=
  validate_time "add_time" (add_time_body time_str hrs mins secs).

Definition subtract_time_body (time_str : string) (hrs mins secs : Z)
  : Py string :=
  time <- parse_time time_str ;;
  dt <- anchor time ;;
  delta <- timedelta_new 0 hrs mins secs ;;
  dt <- add_datetime_timedelta dt delta (-1) ;;
  ret (hms (dt_hour dt) (dt_minute dt) (dt_second dt)).

Definition subtract_time (time_str : string) (hrs mins secs : Z)
  : Py (option string) :=
  validate_time "subtract_time" (subtract_time_body time_str hrs mins secs).

(** The tail shared by [time_difference] and [calculate_duration]:
    two [divmod]s on [delta.seconds] and the rendering. *)
Definition render_seconds (secs : Z) : string :=
  let h := secs / 3600 in
  let remainder := secs mod 3600 in
  hms h (remainder / 60) (remainder mod 60).

Definition time_difference_body (time1 time2 : string) : Py string :=
  t1 <- parse_time time1 ;;
  t2 <- parse_time time2 ;;
  dt1 <- anchor t1 ;;
  dt2 <- anchor t2 ;;
  d <- datetime_sub dt2 dt1 ;;
  diff <- timedelta_abs d ;;
  ret (render_seconds (td_seconds diff)).

Definition time_difference (time1 time2 : string) : Py (option string) :=
  validate_time "time_difference" (time_difference_body time1 time2).

Definition calculate_duration_body (start_time end_time : string)
  : Py string :=
  start <- parse_time start_time ;;
  end_ <- parse_time end_time ;;
  start_dt <- anchor start ;;
  end_dt <- anchor end_ ;;
  end_dt <- (if datetime_lt end_dt start_dt
             then one_day <- timedelta_new 1 0 0 0 ;;
                  add_datetime_timedelta end_dt one_day 1
             else ret end_dt) ;;
  duration <- datetime_sub end_dt start_dt ;;
  ret (render_seconds (td_seconds duration)).

Definition calculate_duration (start_time end_time : string)
  : Py (option string) :=
  validate_time "calculate_duration"
    (calculate_duration_body start_time end_time).

(** * The vocabulary of the statements *)

(** [valid_time s t]: [s] is a valid 24-hour time whose value is [t], that
    is, the body of [parse_time] returns [t] on [s]. *)
Definition valid_time (s : string) (t : Time) : Prop :=
  outcome (parse_time_body s) = inr t.

(** The time of day of [t], in seconds since midnight. *)
Definition secs_of (t : Time) : Z :=
  hours t * 3600 + minutes t * 60 + seconds t.

(** A signed duration, in seconds. *)
Definition duration (hrs mins secs : Z) : Z := hrs * 3600 + mins * 60 + secs.

(** The ordinal of the date all arithmetic is anchored to. *)
Definition anchor_day : Z := ymd2ord 2000 1 1.

(** The instant [total] seconds after midnight of day [ord], as a
    [datetime], when it lies in the range of the type. *)
Definition instant (ord total : Z) : exn + datetime :=
  let day := ord + total / SECONDS_PER_DAY in
  let sod := total mod SECONDS_PER_DAY in
  if (1 <=? day) && (day <=? MAXORDINAL)
  then inr (mkDatetime day (sod / 3600) (sod mod 3600 / 60) (sod mod 60))
  else inl OverflowError.

(** Zero-padded rendering, digit by digit: [two_digits n] is the two
    decimal digits of [n], [clock h m s] is [HH:MM:SS], and
    [clock_of_seconds x] renders a number of seconds below a day. *)
Definition digit_char (d : Z) : ascii := ascii_of_N (48 + Z.to_N d).

Definition two_digits (n : Z) : string :=
  String (digit_char (n / 10)) (String (digit_char (n mod 10)) EmptyString).

Definition clock (h m s : Z) : string :=
  two_digits h ++ ":" ++ two_digits m ++ ":" ++ two_digits s.

Definition clock_of_seconds (x : Z) : string :=
  clock (x / 3600) (x mod 3600 / 60) (x mod 60).

(** A field that consists of decimal digits only, at least one: an integer
    literal with no other character. *)
Fixpoint all_digits (s : string) : bool :=
  match s with
  | EmptyString => true
  | String c s' =>
      match digit_val c with
      | Some _ => all_digits s'
      | None => false
      end
  end.

Definition digits_only (s : string) : bool :=
  negb (String.eqb s EmptyString) && all_digits s.

(** The values of the fields of a time: two or three fields, each of which
    [int] accepts, the seconds being 0 when there are two. *)
Definition field_values (fields : list string) : option (Z * Z * Z) :=
  match fields with
  | [a; b] =>
      match int_opt a, int_opt b with
      | Some h, Some m => Some (h, m, 0)
      | _, _ => None
      end
  | [a; b; c] =>
      match int_opt a, int_opt b, int_opt c with
      | Some h, Some m, Some x => Some (h, m, x)
      | _, _, _ => None
      end
  | _ => None
  end.

(** A number below 100 without padding: one digit below 10, else two. *)
Definition unpadded (n : Z) : string :=
  if n <? 10 then String (digit_char n) EmptyString else two_digits n.

(** The hour of the 12-hour clock and the meridiem of an hour of the
    24-hour clock, as the specification words them. *)
Definition hour12 (h : Z) : Z :=
  if h =? 0 then 12
  else if h =? 12 then 12
  else if h >? 12 then h - 12
  else h.

Definition meridiem (h : Z) : string := if h <? 12 then "AM" else "PM".

(** What it means for [r] to match the text [c] at offset [pos], where
    [rest] follows [c], taking the groups from [g] to [g']: the reading of
    a pattern as a grammar, with no order among the alternatives. *)
Fixpoint matches (ic : bool) (r : regex) (pos : nat) (c rest : string)
  (g g' : caps) {struct r} : Prop :=
  match r with
  | Lit x =>
      exists a, c = String a EmptyString /\ lit_matches ic x a = true /\ g' = g
  | Range lo hi =>
      exists a, c = String a EmptyString /\ range_matches lo hi a = true
                /\ g' = g
  | Cat r1 r2 =>
      exists c1 c2 g1,
        c = c1 ++ c2
        /\ matches ic r1 pos c1 (c2 ++ rest) g g1
        /\ matches ic r2 (pos + String.length c1) c2 rest g1 g'
  | Alt r1 r2 =>
      matches ic r1 pos c rest g g' \/ matches ic r2 pos c rest g g'
  | Opt r1 =>
      matches ic r1 pos c rest g g' \/ (c = EmptyString /\ g' = g)
  | Group n r1 =>
      exists g1, matches ic r1 pos c rest g g1 /\ g' = (n, c) :: g1
  | Bol => pos = 0%nat /\ c = EmptyString /\ g' = g
  | Eol => at_eol rest = true /\ c = EmptyString /\ g' = g
  | Eos => at_eos rest = true /\ c = EmptyString /\ g' = g
  end.

(** Patterns without [^]: what they match does not depend on the offset. *)
Fixpoint bol_free (r : regex) : bool :=
  match r with
  | Lit _ | Range _ _ | Eol | Eos => true
  | Cat r1 r2 | Alt r1 r2 => bol_free r1 && bol_free r2
  | Opt r1 | Group _ r1 => bol_free r1
  | Bol => false
  end.

(** The parts of the pattern of [standard_to_military_time]. *)
Definition hour_re : regex :=
  (Lit "1" @ Range "0" "2" ||| Opt (Lit "0") @ Range "1" "9")%re.

Definition minute_re : regex := (Range "0" "5" @ Range "0" "9")%re.

Definition seconds_re : regex :=
  Opt (Group 3 (Opt (Range "0" "5") @ Range "0" "9")).

Definition meridiem_re : regex :=
  Group 4 (Lit "A" @ Lit "M" ||| Lit "P" @ Lit "M").

Definition tail_re : regex :=
  (Opt (Lit ":") @ seconds_re @ Opt (Lit " ") @ meridiem_re @ Eol)%re.

(** The grammar of standard time as the specification words it: hour 1-12
    with an optional leading zero, a colon, a two-digit minute, optionally
    a colon and a two-digit second, an optional space, AM or PM in any
    case, and nothing before or after. *)
Definition spec_standard_pattern : regex :=
  (Bol
   @ Group 1 hour_re
   @ Lit ":"
   @ Group 2 minute_re
   @ Opt (Lit ":" @ Group 3 (Range "0" "5" @ Range "0" "9"))
   @ Opt (Lit " ")
   @ Group 4 (Lit "A" @ Lit "M" ||| Lit "P" @ Lit "M")
   @ Eos)%re.

(** The texts of the fields of a standard time and the numbers they stand
    for. *)
Definition hour_text (hn : Z) (h : string) : Prop :=
  1 <= hn <= 12 /\ (h = unpadded hn \/ h = two_digits hn).

Definition minute_text (mn : Z) (m : string) : Prop :=
  0 <= mn < 60 /\ m = two_digits mn.

Definition seconds_text (sn : option Z) (x : string) : Prop :=
  match sn with
  | None => x = EmptyString
  | Some n => 0 <= n < 60 /\ (x = two_digits n \/ x = unpadded n)
  end.

Definition meridiem_text (pm : bool) (mer : string) : Prop :=
  upper mer = if pm then "PM" else "AM".

Definition optional (x s : string) : Prop := s = EmptyString \/ s = x.

(** The shape of the texts the pattern accepts: hour, colon, minute, an
    optional colon, optional seconds, an optional space, the meridiem and
    an optional newline. *)
Definition standard_form (s h m x mer : string) : Prop :=
  exists colon sp nl,
    s = h ++ ":" ++ m ++ colon ++ x ++ sp ++ mer ++ nl
    /\ optional ":" colon /\ optional " " sp
    /\ optional (String newline EmptyString) nl.

(** The texts [standard_to_military_time] accepts. *)
Definition standard_accepted (s : string) : Prop :=
  exists h m x mer hn mn sn pm,
    standard_form s h m x mer
    /\ hour_text hn h /\ minute_text mn m /\ seconds_text sn x
    /\ meridiem_text pm mer.

(** The shape of the texts of the grammar of standard time: hour, colon,
    minute, then the seconds behind their colon when they are present, an
    optional space and the meridiem, with nothing before or after. *)
Definition grammar_form (s h m x mer : string) : Prop :=
  exists sp,
    optional " " sp
    /\ s = h ++ ":" ++ m
          ++ (if String.eqb x EmptyString then EmptyString else ":" ++ x)
          ++ sp ++ mer.

(** The texts of that grammar, with seconds of one or two digits. *)
Definition grammar_accepted (s : string) : Prop :=
  exists h m x mer hn mn sn pm,
    grammar_form s h m x mer
    /\ hour_text hn h /\ minute_text mn m /\ seconds_text sn x
    /\ meridiem_text pm mer.

(** The hour of the 24-hour clock, as the specification words the
    mapping. *)
Definition hour24 (hn : Z) (pm : bool) : Z :=
  if pm && negb (hn =? 12) then hn + 12
  else if negb pm && (hn =? 12) then 0
  else hn.

Definition seconds_value (sn : option Z) : Z :=
  match sn with
  | Some n => n
  | None => 0
  end.

(** The groups of a match: 4 and 3 (when the seconds are present) are set
    after 2 and 1. *)
Definition tail_caps (x mer : string) : caps :=
  (4%nat, mer) :: (if String.eqb x EmptyString then [] else [(3%nat, x)]).

Definition standard_caps (h m x mer : string) : caps :=
  (tail_caps x mer ++ [(2%nat, m); (1%nat, h)])%list.

(** Tables of the texts of each field. *)
Definition range_Z (lo n : nat) : list Z := map Z.of_nat (seq lo n).

Definition hour_texts : list string :=
  (map unpadded (range_Z 1 12) ++ map two_digits (range_Z 1 12))%list.

Definition minute_texts : list string := map two_digits (range_Z 0 60).

Definition second_texts : list string :=
  (EmptyString
   :: map two_digits (range_Z 0 60) ++ map unpadded (range_Z 0 60))%list.

Definition meridiem_texts : list string :=
  ["AM"; "Am"; "aM"; "am"; "PM"; "Pm"; "pM"; "pm"].

Definition tails : list (string * caps) :=
  flat_map (fun colon =>
    flat_map (fun x =>
      flat_map (fun sp =>
        flat_map (fun mer =>
          map (fun nl => (colon ++ x ++ sp ++ mer ++ nl, tail_caps x mer))
            [EmptyString; String newline EmptyString])
          meridiem_texts)
        [EmptyString; " "])
      second_texts)
    [EmptyString; ":"].

Fixpoint caps_eqb (a b : caps) : bool :=
  match a, b with
  | [], [] => true
  | (i, x) :: a', (j, y) :: b' =>
      Nat.eqb i j && String.eqb x y && caps_eqb a' b'
  | _, _ => false
  end.

Definition tail_ok (e : string * caps) : bool :=
  match run true tail_re 0 (fst e) [] final with
  | Some g => caps_eqb g (snd e)
  | None => false
  end.

Definition mem (x : string) (l : list string) : bool :=
  existsb (String.eqb x) l.

(** What the decorator writes for an exception: the words of the log
    record and the title of the dialog. *)
Definition error_kind (e : exn) : string :=
  match e with
  | TimeFormatError _ => "Time format error"
  | _ => "Unexpected error"
  end.

Definition error_title (e : exn) : string :=
  match e with
  | TimeFormatError _ => "Time Format Error"
  | _ => "Unexpected Error"
  end.

(** The events of a computation. *)
Definition trace {A : Type} (m : Py A) : list event := fst m.

(** The dialogs among the events. *)
Definition dialogs (t : list event) : list event :=
  filter (fun ev => match ev with ShowError _ _ => true | _ => false end) t.

(** The text of a time in the 12-hour form [military_to_standard_time]
    writes. *)
Definition standard_clock (hn mn sn : Z) (pm : bool) : string :=
  unpadded hn ++ ":" ++ two_digits mn ++ ":" ++ two_digits sn ++ " "
  ++ (if pm then "PM" else "AM").

(** No character of [s] is [sep]. *)
Fixpoint no_sep (sep : ascii) (s : string) : bool :=
  match s with
  | EmptyString => true
  | String c s' => negb (Ascii.eqb c sep) && no_sep sep s'
  end.

(** * Properties *)

(** ** Checks of the model on the examples of the specification *)

Example parse_time_ex1 :
  parse_time_body "07:05" = ([], inr (Time_ 7 5 0)).
Proof. reflexivity. Qed.

Example parse_time_ex2 :
  outcome (parse_time_body "24:00") = inl (TimeFormatError out_of_range_msg).
Proof. reflexivity. Qed.

Example parse_time_ex3 :
  outcome (parse_time_body "ab:cd") = inl ValueError.
Proof. reflexivity. Qed.

Example str_ex :
  (str 0, str 12, str (-5), format_02d 5, format_02d (-5), format_02d 123)
  = ("0", "12", "-5", "05", "-5", "123").
Proof. reflexivity. Qed.

Example int_ex :
  (int_opt " 12 ", int_opt "+5", int_opt "-0", int_opt "1_0", int_opt "1__0",
   int_opt "1_", int_opt "_1", int_opt "", int_opt "- 5", int_opt "007")
  = (Some 12, Some 5, Some 0, Some 10, None, None, None, None, None, Some 7).
Proof. reflexivity. Qed.

Example ordinal_ex : (ymd2ord 2000 1 1, MAXORDINAL) = (730120, 3652059).
Proof. reflexivity. Qed.

Example re_ex :
  map (fun s =>
         option_map (fun g => (group 1 g, group 2 g, group 3 g, group 4 g))
           (re_match true standard_time_pattern s))
    ["1:30:5 PM"; "1:3045 PM"; "1:30: PM"; "13:00:00 AM"; "01:30pm"; "1:306 PM"]
  = [Some (Some "1", Some "30", Some "5", Some "PM");
     Some (Some "1", Some "30", Some "45", Some "PM");
     Some (Some "1", Some "30", None, Some "PM");
     None;
     Some (Some "01", Some "30", None, Some "pm");
     Some (Some "1", Some "30", Some "6", Some "PM")].
Proof. reflexivity. Qed.

Example funs_ex :
  (returned (military_to_standard_time "13:30:00" false),
   returned (standard_to_military_time "12:00:00 AM"),
   returned (add_time "23:50:00" 0 20 0),
   returned (subtract_time "00:10:00" 0 20 0),
   returned (time_difference "10:00" "08:30:15"),
   returned (calculate_duration "22:00:00" "02:00:00"),
   returned (add_time "00:00:00" 100000000 0 0))
  = (Some "1:30:00 PM", Some "00:00:00", Some "00:10:00", Some "23:50:00",
     Some "01:29:45", Some "04:00:00", None).
Proof. reflexivity. Qed.

(** ** The monad *)

Lemma outcome_bind {A B : Type} (m : Py A) (f : A -> Py B) :
  outcome (bind m f)
  = match outcome m with
    | inl e => inl e
    | inr a => outcome (f a)
    end.
Proof.
  destruct m as [t [e | a]]; cbn; [reflexivity |].
  destruct (f a); reflexivity.
Qed.

Lemma outcome_validate {A : Type} (fname : string) (body : Py A) :
  outcome (validate_time fname body)
  = inr (match outcome body with
         | inr a => Some a
         | inl _ => None
         end).
Proof.
  destruct body as [t [[msg | | | |] | a]]; reflexivity.
Qed.

Lemma returned_validate {A : Type} (fname : string) (body : Py A) :
  returned (validate_time fname body)
  = match outcome body with
    | inr a => Some a
    | inl _ => None
    end.
Proof.
  unfold returned. change (snd ?m) with (outcome m).
  rewrite outcome_validate. destruct (outcome body); reflexivity.
Qed.

(** ** parse_time *)

Lemma outcome_map_int2 (a b : string) :
  outcome (map_int [a; b])
  = match int_opt a, int_opt b with
    | Some x, Some y => inr [x; y]
    | _, _ => inl ValueError
    end.
Proof.
  unfold map_int, int.
  destruct (int_opt a), (int_opt b); reflexivity.
Qed.

Lemma outcome_map_int3 (a b c : string) :
  outcome (map_int [a; b; c])
  = match int_opt a, int_opt b, int_opt c with
    | Some x, Some y, Some z => inr [x; y; z]
    | _, _, _ => inl ValueError
    end.
Proof.
  unfold map_int, int.
  destruct (int_opt a), (int_opt b), (int_opt c); reflexivity.
Qed.

Lemma outcome_check_range (h m s : Z) :
  outcome (check_range h m s)
  = if in_range h m s then inr (Time_ h m s)
    else inl (TimeFormatError out_of_range_msg).
Proof.
  unfold check_range. destruct (in_range h m s); reflexivity.
Qed.

(** What [parse_time] does, by the number of fields and what [int] makes of
    each. *)
Lemma parse_time_cases (s : string) :
  outcome (parse_time_body s)
  = match split ":" s with
    | [a; b] =>
        match int_opt a, int_opt b with
        | Some h, Some m =>
            if in_range h m 0 then inr (Time_ h m 0)
            else inl (TimeFormatError out_of_range_msg)
        | _, _ => inl ValueError
        end
    | [a; b; c] =>
        match int_opt a, int_opt b, int_opt c with
        | Some h, Some m, Some x =>
            if in_range h m x then inr (Time_ h m x)
            else inl (TimeFormatError out_of_range_msg)
        | _, _, _ => inl ValueError
        end
    | _ => inl (TimeFormatError invalid_format_msg)
    end.
Proof.
  unfold parse_time_body.
  destruct (split ":" s) as [| a [| b [| c [| d l]]]]; try reflexivity.
  - rewrite outcome_bind, outcome_map_int2.
    destruct (int_opt a), (int_opt b); try reflexivity.
    apply outcome_check_range.
  - rewrite outcome_bind, outcome_map_int3.
    destruct (int_opt a), (int_opt b), (int_opt c); try reflexivity.
    apply outcome_check_range.
Qed.

Lemma valid_time_range (s : string) (t : Time) :
  valid_time s t ->
  in_range (hours t) (minutes t) (seconds t) = true /\ timezone t = "UTC".
Proof.
  unfold valid_time. rewrite parse_time_cases.
  destruct (split ":" s) as [| a [| b [| c [| d l]]]]; try discriminate.
  - destruct (int_opt a), (int_opt b); try discriminate.
    destruct (in_range z z0 0) eqn:E; try discriminate.
    intros [= <-]. auto.
  - destruct (int_opt a), (int_opt b), (int_opt c); try discriminate.
    destruct (in_range z z0 z1) eqn:E; try discriminate.
    intros [= <-]. auto.
Qed.

Lemma in_range_bounds (h m s : Z) :
  in_range h m s = true <-> 0 <= h < 24 /\ 0 <= m < 60 /\ 0 <= s < 60.
Proof.
  unfold in_range, HOURS_IN_DAY, MINUTES_IN_HOUR, SECONDS_IN_MINUTE.
  rewrite !andb_true_iff, !Z.leb_le, !Z.ltb_lt. lia.
Qed.

Lemma valid_time_bounds (s : string) (t : Time) :
  valid_time s t ->
  0 <= hours t < 24 /\ 0 <= minutes t < 60 /\ 0 <= seconds t < 60.
Proof.
  intros H. apply in_range_bounds, (valid_time_range s t H).
Qed.

Lemma outcome_parse_time (s : string) (t : Time) :
  valid_time s t -> outcome (parse_time s) = inr (Some t).
Proof.
  intros H. unfold parse_time. rewrite outcome_validate.
  unfold valid_time in H. rewrite H. reflexivity.
Qed.

Lemma outcome_parse_time_invalid (s : string) (e : exn) :
  outcome (parse_time_body s) = inl e -> outcome (parse_time s) = inr None.
Proof.
  intros H. unfold parse_time. rewrite outcome_validate, H. reflexivity.
Qed.

(** ** Dates and durations *)

Lemma MAXORDINAL_val : MAXORDINAL = 3652059.
Proof. reflexivity. Qed.

Lemma anchor_day_val : anchor_day = 730120.
Proof. reflexivity. Qed.

Ltac euclid := Z.to_euclidean_division_equations; lia.

Lemma bind_ret_l {A B : Type} (a : A) (f : A -> Py B) :
  bind (ret a) f = f a.
Proof. unfold bind, ret. destruct (f a); reflexivity. Qed.

Lemma outcome_anchor (t : Time) :
  0 <= hours t < 24 /\ 0 <= minutes t < 60 /\ 0 <= seconds t < 60 ->
  outcome (anchor (Some t))
  = inr (mkDatetime anchor_day (hours t) (minutes t) (seconds t)).
Proof.
  intros (Hh & Hm & Hs). unfold anchor, getattr.
  rewrite !bind_ret_l. unfold datetime_new.
  replace (0 <=? hours t) with true by (symmetry; apply Z.leb_le; lia).
  replace (hours t <? 24) with true by (symmetry; apply Z.ltb_lt; lia).
  replace (0 <=? minutes t) with true by (symmetry; apply Z.leb_le; lia).
  replace (minutes t <? 60) with true by (symmetry; apply Z.ltb_lt; lia).
  replace (0 <=? seconds t) with true by (symmetry; apply Z.leb_le; lia).
  replace (seconds t <? 60) with true by (symmetry; apply Z.ltb_lt; lia).
  reflexivity.
Qed.

Lemma outcome_anchor_None : outcome (anchor None) = inl AttributeError.
Proof. reflexivity. Qed.

Lemma outcome_shift (h m s hrs mins secs factor : Z) :
  0 <= h < 24 /\ 0 <= m < 60 /\ 0 <= s < 60 ->
  factor = 1 \/ factor = -1 ->
  outcome (delta <- timedelta_new 0 hrs mins secs ;;
           add_datetime_timedelta (mkDatetime anchor_day h m s) delta factor)
  = instant anchor_day
      (h * 3600 + m * 60 + s + factor * duration hrs mins secs).
Proof.
  intros (Hh & Hm & Hs) Hf. rewrite outcome_bind.
  unfold timedelta_new, instant, duration.
  rewrite MAXORDINAL_val, anchor_day_val.
  unfold MAX_DELTA_DAYS, SECONDS_PER_DAY.
  set (D := hrs * 3600 + mins * 60 + secs).
  replace (0 * 86400 + hrs * 3600 + mins * 60 + secs) with D by (unfold D; lia).
  set (base := h * 3600 + m * 60 + s).
  assert (Hb : 0 <= base < 86400) by (unfold base; lia).
  destruct ((- (999999999) <=? D / 86400) && (D / 86400 <=? 999999999)) eqn:Etd.
  - cbn [outcome ret snd]. unfold add_datetime_timedelta.
    cbn [dt_hour dt_minute dt_second dt_ordinal td_days td_seconds].
    rewrite MAXORDINAL_val. unfold SECONDS_PER_DAY. fold base.
    assert (Hday : 730120 + D / 86400 * factor
                   + (base + D mod 86400 * factor) / 86400
                   = 730120 + (base + factor * D) / 86400)
      by (destruct Hf; subst factor; euclid).
    assert (Hsod : (base + D mod 86400 * factor) mod 86400
                   = (base + factor * D) mod 86400)
      by (destruct Hf; subst factor; euclid).
    rewrite Hday, Hsod.
    destruct ((1 <=? 730120 + (base + factor * D) / 86400)
              && (730120 + (base + factor * D) / 86400 <=? 3652059));
      reflexivity.
  - cbn [outcome raise snd].
    replace ((1 <=? 730120 + (base + factor * D) / 86400)
             && (730120 + (base + factor * D) / 86400 <=? 3652059))
      with false; [reflexivity |].
    symmetry. apply andb_false_iff. apply andb_false_iff in Etd.
    rewrite Z.leb_gt in *. rewrite Z.leb_gt.
    destruct Hf; subst factor; destruct Etd; euclid.
Qed.

(** ** Rendering *)

Lemma Z_range_forallb (f : Z -> bool) (n : nat) :
  forallb f (map Z.of_nat (seq 0 n)) = true ->
  forall z, 0 <= z < Z.of_nat n -> f z = true.
Proof.
  intros H z Hz. rewrite forallb_forall in H. apply H.
  apply in_map_iff. exists (Z.to_nat z). split; [lia |].
  apply in_seq. lia.
Qed.

Lemma format_02d_two_digits (n : Z) :
  0 <= n < 100 -> format_02d n = two_digits n.
Proof.
  intros Hn. apply String.eqb_eq.
  apply (Z_range_forallb
           (fun n => String.eqb (format_02d n) (two_digits n)) 100);
    [vm_compute; reflexivity | lia].
Qed.

Lemma hms_clock (h m s : Z) :
  0 <= h < 100 -> 0 <= m < 100 -> 0 <= s < 100 -> hms h m s = clock h m s.
Proof.
  intros Hh Hm Hs. unfold hms, clock.
  rewrite !format_02d_two_digits by assumption. reflexivity.
Qed.

Lemma render_seconds_clock (x : Z) :
  0 <= x < 86400 -> render_seconds x = clock_of_seconds x.
Proof.
  intros Hx. unfold render_seconds, clock_of_seconds.
  replace ((x mod 3600) mod 60) with (x mod 60) by euclid.
  apply hms_clock; euclid.
Qed.

(** ** add_time and subtract_time *)

Lemma outcome_bind_assoc {A B C : Type}
  (m : Py A) (f : A -> Py B) (g : B -> Py C) :
  outcome (bind m (fun x => bind (f x) g)) = outcome (bind (bind m f) g).
Proof.
  rewrite !outcome_bind.
  destruct (outcome m); [reflexivity |]. apply outcome_bind.
Qed.

(** The body shared by [add_time] and [subtract_time]. *)
Lemma outcome_shift_time (s : string) (hrs mins secs factor : Z) :
  factor = 1 \/ factor = -1 ->
  outcome (time <- parse_time s ;;
           dt <- anchor time ;;
           delta <- timedelta_new 0 hrs mins secs ;;
           dt <- add_datetime_timedelta dt delta factor ;;
           ret (hms (dt_hour dt) (dt_minute dt) (dt_second dt)))
  = match outcome (parse_time_body s) with
    | inl _ => inl AttributeError
    | inr t =>
        match instant anchor_day (secs_of t + factor * duration hrs mins secs)
        with
        | inl e => inl e
        | inr dt => inr (hms (dt_hour dt) (dt_minute dt) (dt_second dt))
        end
    end.
Proof.
  intros Hf. rewrite outcome_bind.
  destruct (outcome (parse_time_body s)) as [e | t] eqn:E.
  - rewrite (outcome_parse_time_invalid s e E). reflexivity.
  - rewrite (outcome_parse_time s t E).
    pose proof (valid_time_bounds s t E) as Hb.
    rewrite outcome_bind, (outcome_anchor t Hb).
    rewrite outcome_bind_assoc, outcome_bind.
    rewrite (outcome_shift _ _ _ hrs mins secs factor Hb Hf).
    reflexivity.
Qed.

Lemma returned_add_time (s : string) (hrs mins secs : Z) :
  returned (add_time s hrs mins secs)
  = match outcome (parse_time_body s) with
    | inl _ => None
    | inr t =>
        match instant anchor_day (secs_of t + duration hrs mins secs) with
        | inl _ => None
        | inr dt => Some (hms (dt_hour dt) (dt_minute dt) (dt_second dt))
        end
    end.
Proof.
  unfold add_time, add_time_body.
  rewrite returned_validate, (outcome_shift_time s hrs mins secs 1)
    by (left; reflexivity).
  rewrite Z.mul_1_l.
  destruct (outcome (parse_time_body s)); [reflexivity |].
  destruct (instant _ _); reflexivity.
Qed.

Lemma returned_subtract_time (s : string) (hrs mins secs : Z) :
  returned (subtract_time s hrs mins secs)
  = match outcome (parse_time_body s) with
    | inl _ => None
    | inr t =>
        match instant anchor_day (secs_of t - duration hrs mins secs) with
        | inl _ => None
        | inr dt => Some (hms (dt_hour dt) (dt_minute dt) (dt_second dt))
        end
    end.
Proof.
  unfold subtract_time, subtract_time_body.
  rewrite returned_validate, (outcome_shift_time s hrs mins secs (-1))
    by (right; reflexivity).
  destruct (outcome (parse_time_body s)) as [e | t]; [reflexivity |].
  replace (secs_of t + -1 * duration hrs mins secs)
    with (secs_of t - duration hrs mins secs) by lia.
  destruct (instant _ _); reflexivity.
Qed.

(** C6, as amended: for a valid base time and signed components whose sum,
    counted from the anchor date, stays within the range of [datetime]
    (years 1 to 9999), [add_time] returns the zero-padded HH:MM:SS
    rendering of the base time in seconds plus the duration, modulo 24
    hours; [subtract_time] returns what [add_time] returns on the negated
    components; and the two wrap-around examples hold. *)
Theorem add_time_wraps (s : string) (t : Time) (hrs mins secs : Z) :
  valid_time s t ->
  1 <= anchor_day + (secs_of t + duration hrs mins secs) / 86400
    <= MAXORDINAL ->
  returned (add_time s hrs mins secs)
  = Some (clock_of_seconds ((secs_of t + duration hrs mins secs) mod 86400))
  /\ returned (subtract_time s hrs mins secs)
     = returned (add_time s (- hrs) (- mins) (- secs))
  /\ returned (add_time "23:50:00" 0 20 0) = Some "00:10:00"
  /\ returned (subtract_time "00:10:00" 0 20 0) = Some "23:50:00".
Proof.
  intros Hv Hr. repeat split; try reflexivity.
  - rewrite returned_add_time. unfold valid_time in Hv. rewrite Hv.
    unfold instant, SECONDS_PER_DAY.
    set (total := secs_of t + duration hrs mins secs) in *.
    replace ((1 <=? anchor_day + total / 86400)
             && (anchor_day + total / 86400 <=? MAXORDINAL)) with true
      by (symmetry; apply andb_true_iff; rewrite !Z.leb_le; lia).
    cbn [dt_hour dt_minute dt_second]. f_equal.
    unfold clock_of_seconds.
    replace ((total mod 86400) mod 60) with ((total mod 86400) mod 3600 mod 60)
      by euclid.
    apply hms_clock; euclid.
  - rewrite returned_subtract_time, returned_add_time.
    destruct (outcome (parse_time_body s)); [reflexivity |].
    replace (secs_of t0 + duration (- hrs) (- mins) (- secs))
      with (secs_of t0 - duration hrs mins secs)
      by (unfold duration; lia).
    reflexivity.
Qed.

Lemma add_time_wraps_witness :
  valid_time "23:50:00" (Time_ 23 50 0)
  /\ returned (add_time "23:50:00" 0 20 0)
     = Some (clock_of_seconds
               ((secs_of (Time_ 23 50 0) + duration 0 20 0) mod 86400)).
Proof.
  split; [reflexivity |].
  apply (add_time_wraps "23:50:00" (Time_ 23 50 0) 0 20 0);
    [reflexivity | vm_compute; split; discriminate].
Defined.

(** C6 as stated fails: a valid base time and a duration of 100000000
    hours, for which [add_time] raises [OverflowError] and returns
    nothing. *)
Lemma add_time_overflow :
  valid_time "00:00:00" (Time_ 0 0 0)
  /\ outcome (add_time_body "00:00:00" 100000000 0 0) = inl OverflowError
  /\ returned (add_time "00:00:00" 100000000 0 0) = None.
Proof. repeat split. Qed.

(** ** time_difference and calculate_duration *)

Lemma outcome_timedelta_new (days hrs mins secs : Z) :
  - 999999999 <= (days * 86400 + hrs * 3600 + mins * 60 + secs) / 86400
    <= 999999999 ->
  outcome (timedelta_new days hrs mins secs)
  = inr (mkTimedelta
           ((days * 86400 + hrs * 3600 + mins * 60 + secs) / 86400)
           ((days * 86400 + hrs * 3600 + mins * 60 + secs) mod 86400)).
Proof.
  intros H. unfold timedelta_new, MAX_DELTA_DAYS, SECONDS_PER_DAY.
  replace ((- (999999999) <=? _) && (_ <=? 999999999)) with true;
    [reflexivity |].
  symmetry. apply andb_true_iff. rewrite !Z.leb_le. lia.
Qed.

Section TwoTimes.

Variables t1 t2 : Time.
Hypothesis B1 :
  0 <= hours t1 < 24 /\ 0 <= minutes t1 < 60 /\ 0 <= seconds t1 < 60.
Hypothesis B2 :
  0 <= hours t2 < 24 /\ 0 <= minutes t2 < 60 /\ 0 <= seconds t2 < 60.

Lemma outcome_abs_sub :
  outcome
    (bind (datetime_sub
             (mkDatetime anchor_day (hours t2) (minutes t2) (seconds t2))
             (mkDatetime anchor_day (hours t1) (minutes t1) (seconds t1)))
       timedelta_abs)
  = inr (mkTimedelta 0 (Z.abs (secs_of t2 - secs_of t1))).
Proof.
  rewrite outcome_bind. unfold datetime_sub.
  cbn [dt_ordinal dt_hour dt_minute dt_second].
  rewrite outcome_timedelta_new by (unfold secs_of in *; euclid).
  unfold timedelta_abs. cbn [td_days td_seconds].
  set (D := (anchor_day - anchor_day) * 86400
            + (hours t2 - hours t1) * 3600
            + (minutes t2 - minutes t1) * 60 + (seconds t2 - seconds t1)).
  assert (HD : D = secs_of t2 - secs_of t1)
    by (unfold D, secs_of; lia).
  assert (Hr : -86400 < D < 86400) by (unfold secs_of in HD; lia).
  destruct (D / 86400 <? 0) eqn:E.
  - apply Z.ltb_lt in E. unfold timedelta_neg. cbn [td_days td_seconds].
    rewrite outcome_timedelta_new by euclid.
    do 2 f_equal; rewrite <- ?HD; euclid.
  - apply Z.ltb_ge in E. cbn [outcome ret snd].
    do 2 f_equal; rewrite <- ?HD; euclid.
Qed.

Lemma outcome_rollover :
  let dt1 := mkDatetime anchor_day (hours t1) (minutes t1) (seconds t1) in
  let dt2 := mkDatetime anchor_day (hours t2) (minutes t2) (seconds t2) in
  outcome (end_dt <- (if datetime_lt dt2 dt1
                      then one_day <- timedelta_new 1 0 0 0 ;;
                           add_datetime_timedelta dt2 one_day 1
                      else ret dt2) ;;
           datetime_sub end_dt dt1)
  = inr (mkTimedelta 0 ((secs_of t2 - secs_of t1) mod 86400)).
Proof.
  cbv zeta. rewrite outcome_bind. unfold datetime_lt.
  cbn [dt_ordinal dt_hour dt_minute dt_second].
  rewrite Z.ltb_irrefl, Z.eqb_refl. cbn [orb andb].
  fold (secs_of t1). fold (secs_of t2).
  destruct (secs_of t2 <? secs_of t1) eqn:E.
  - apply Z.ltb_lt in E.
    rewrite outcome_bind, outcome_timedelta_new
      by (vm_compute; split; discriminate).
    unfold add_datetime_timedelta.
    cbn [dt_ordinal dt_hour dt_minute dt_second td_days td_seconds].
    fold (secs_of t2). rewrite MAXORDINAL_val, anchor_day_val.
    unfold SECONDS_PER_DAY.
    change ((1 * 86400 + 0 * 3600 + 0 * 60 + 0) / 86400) with 1.
    change ((1 * 86400 + 0 * 3600 + 0 * 60 + 0) mod 86400) with 0.
    assert (H2 : 0 <= secs_of t2 < 86400) by (unfold secs_of; lia).
    assert (H1 : 0 <= secs_of t1 < 86400) by (unfold secs_of; lia).
    replace ((1 <=? 730120 + 1 * 1 + (secs_of t2 + 0 * 1) / 86400)
             && (730120 + 1 * 1 + (secs_of t2 + 0 * 1) / 86400 <=? 3652059))
      with true
      by (symmetry; apply andb_true_iff; rewrite !Z.leb_le; euclid).
    cbn [outcome ret snd]. unfold datetime_sub.
    cbn [dt_ordinal dt_hour dt_minute dt_second].
    rewrite outcome_timedelta_new by (unfold secs_of in *; euclid).
    do 2 f_equal; unfold secs_of in *; euclid.
  - apply Z.ltb_ge in E. cbn [outcome ret snd]. unfold datetime_sub.
    cbn [dt_ordinal dt_hour dt_minute dt_second].
    rewrite outcome_timedelta_new by (unfold secs_of in *; euclid).
    do 2 f_equal; unfold secs_of in *; euclid.
Qed.

End TwoTimes.

Lemma outcome_parse_time_gen (s : string) :
  outcome (parse_time s)
  = inr (match outcome (parse_time_body s) with
         | inr t => Some t
         | inl _ => None
         end).
Proof. apply outcome_validate. Qed.

Lemma returned_time_difference (a b : string) :
  returned (time_difference a b)
  = match outcome (parse_time_body a), outcome (parse_time_body b) with
    | inr ta, inr tb =>
        Some (render_seconds (Z.abs (secs_of tb - secs_of ta)))
    | _, _ => None
    end.
Proof.
  unfold time_difference, time_difference_body.
  rewrite returned_validate, outcome_bind, outcome_parse_time_gen.
  rewrite outcome_bind, outcome_parse_time_gen.
  destruct (outcome (parse_time_body a)) as [ea | ta] eqn:Ea.
  - rewrite outcome_bind, outcome_anchor_None.
    destruct (outcome (parse_time_body b)); reflexivity.
  - pose proof (valid_time_bounds a ta Ea) as Ba.
    rewrite outcome_bind, (outcome_anchor ta Ba).
    destruct (outcome (parse_time_body b)) as [eb | tb] eqn:Eb.
    + rewrite outcome_bind, outcome_anchor_None. reflexivity.
    + pose proof (valid_time_bounds b tb Eb) as Bb.
      rewrite outcome_bind, (outcome_anchor tb Bb).
      rewrite outcome_bind_assoc, outcome_bind.
      rewrite (outcome_abs_sub ta tb Ba Bb). reflexivity.
Qed.

Lemma returned_calculate_duration (a b : string) :
  returned (calculate_duration a b)
  = match outcome (parse_time_body a), outcome (parse_time_body b) with
    | inr ta, inr tb =>
        Some (render_seconds ((secs_of tb - secs_of ta) mod 86400))
    | _, _ => None
    end.
Proof.
  unfold calculate_duration, calculate_duration_body.
  rewrite returned_validate, outcome_bind, outcome_parse_time_gen.
  rewrite outcome_bind, outcome_parse_time_gen.
  destruct (outcome (parse_time_body a)) as [ea | ta] eqn:Ea.
  - rewrite outcome_bind, outcome_anchor_None.
    destruct (outcome (parse_time_body b)); reflexivity.
  - pose proof (valid_time_bounds a ta Ea) as Ba.
    rewrite outcome_bind, (outcome_anchor ta Ba).
    destruct (outcome (parse_time_body b)) as [eb | tb] eqn:Eb.
    + rewrite outcome_bind, outcome_anchor_None. reflexivity.
    + pose proof (valid_time_bounds b tb Eb) as Bb.
      rewrite outcome_bind, (outcome_anchor tb Bb).
      rewrite outcome_bind_assoc, outcome_bind.
      pose proof (outcome_rollover ta tb Ba Bb) as Hd. cbv zeta in Hd.
      rewrite Hd. reflexivity.
Qed.

Lemma secs_of_bounds (s : string) (t : Time) :
  valid_time s t -> 0 <= secs_of t < 86400.
Proof.
  intros H. pose proof (valid_time_bounds s t H). unfold secs_of. lia.
Qed.

(** C7: for valid times [a] and [b], [time_difference a b] and
    [time_difference b a] return the same text, which is the zero-padded
    HH:MM:SS rendering of the absolute difference of the two times of day,
    a duration of at least 0 and less than 24 hours. *)
Theorem time_difference_symmetric (a b : string) (ta tb : Time) :
  valid_time a ta -> valid_time b tb ->
  returned (time_difference a b) = returned (time_difference b a)
  /\ returned (time_difference a b)
     = Some (clock_of_seconds (Z.abs (secs_of ta - secs_of tb)))
  /\ 0 <= Z.abs (secs_of ta - secs_of tb) < 86400.
Proof.
  intros Ha Hb.
  pose proof (secs_of_bounds a ta Ha). pose proof (secs_of_bounds b tb Hb).
  rewrite !returned_time_difference.
  unfold valid_time in Ha, Hb. rewrite Ha, Hb.
  replace (Z.abs (secs_of tb - secs_of ta))
    with (Z.abs (secs_of ta - secs_of tb)) by lia.
  repeat split; try lia.
  f_equal. apply render_seconds_clock. lia.
Qed.

Lemma time_difference_symmetric_witness :
  valid_time "10:00" (Time_ 10 0 0) /\ valid_time "08:30:15" (Time_ 8 30 15)
  /\ returned (time_difference "10:00" "08:30:15")
     = returned (time_difference "08:30:15" "10:00").
Proof.
  split; [reflexivity |]. split; [reflexivity |].
  apply (time_difference_symmetric "10:00" "08:30:15"
           (Time_ 10 0 0) (Time_ 8 30 15)); reflexivity.
Defined.

(** C8: for valid start and end times, [calculate_duration] returns the
    zero-padded HH:MM:SS rendering of end minus start, where an end earlier
    than the start counts as a time of the following day (24 hours are
    added to it); the duration is at least 0 and less than 24 hours; and
    from 22:00:00 to 02:00:00 it is 04:00:00. *)
Theorem calculate_duration_rollover (a b : string) (ta tb : Time) :
  valid_time a ta -> valid_time b tb ->
  let d := if secs_of tb <? secs_of ta
           then secs_of tb + 86400 - secs_of ta
           else secs_of tb - secs_of ta in
  returned (calculate_duration a b) = Some (clock_of_seconds d)
  /\ 0 <= d < 86400
  /\ returned (calculate_duration "22:00:00" "02:00:00") = Some "04:00:00".
Proof.
  intros Ha Hb d.
  pose proof (secs_of_bounds a ta Ha). pose proof (secs_of_bounds b tb Hb).
  assert (Hd : (secs_of tb - secs_of ta) mod 86400 = d /\ 0 <= d < 86400).
  { unfold d. destruct (secs_of tb <? secs_of ta) eqn:E;
      [apply Z.ltb_lt in E | apply Z.ltb_ge in E]; euclid. }
  destruct Hd as [Hd Hr].
  rewrite returned_calculate_duration.
  unfold valid_time in Ha, Hb. rewrite Ha, Hb, Hd.
  repeat split; try lia; try reflexivity.
  f_equal. apply render_seconds_clock. lia.
Qed.

Lemma calculate_duration_rollover_witness :
  valid_time "22:00:00" (Time_ 22 0 0) /\ valid_time "02:00:00" (Time_ 2 0 0)
  /\ returned (calculate_duration "22:00:00" "02:00:00")
     = Some (clock_of_seconds 14400).
Proof.
  split; [reflexivity |]. split; [reflexivity |].
  apply (calculate_duration_rollover "22:00:00" "02:00:00"
           (Time_ 22 0 0) (Time_ 2 0 0)); reflexivity.
Defined.

(** C9, as amended: for a valid time [s], [calculate_duration s s] returns
    [00:00:00]: an end equal to the start is not moved to the following
    day, and the duration is zero. *)
Theorem calculate_duration_same (s : string) (t : Time) :
  valid_time s t ->
  returned (calculate_duration s s) = Some "00:00:00".
Proof.
  intros H. rewrite returned_calculate_duration.
  unfold valid_time in H. rewrite H, Z.sub_diag. reflexivity.
Qed.

Lemma calculate_duration_same_witness :
  valid_time "10:00:00" (Time_ 10 0 0)
  /\ returned (calculate_duration "10:00:00" "10:00:00") = Some "00:00:00".
Proof.
  split; [reflexivity |].
  apply (calculate_duration_same "10:00:00" (Time_ 10 0 0)). reflexivity.
Defined.

(** C9 as stated fails: at 10:00:00 the duration is rendered [00:00:00],
    not a 24-hour duration with an hour field of 24. *)
Lemma same_time_duration_not_24 :
  valid_time "10:00:00" (Time_ 10 0 0)
  /\ returned (calculate_duration "10:00:00" "10:00:00") = Some "00:00:00"
  /\ returned (calculate_duration "10:00:00" "10:00:00") <> Some "24:00:00".
Proof. repeat split. discriminate. Qed.

(** ** The invariant of Time *)

Lemma returned_parse_time (s : string) (t : Time) :
  returned (parse_time s) = Some t <-> valid_time s t.
Proof.
  unfold parse_time, valid_time. rewrite returned_validate.
  destruct (outcome (parse_time_body s)); split; congruence.
Qed.

(** C10: every [Time] that [parse_time], the only place where the module
    constructs one, returns has hours in 0-23, minutes in 0-59 and seconds
    in 0-59 (and the default time zone). *)
Theorem time_invariant (s : string) (t : Time) :
  returned (parse_time s) = Some t ->
  0 <= hours t <= 23 /\ 0 <= minutes t <= 59 /\ 0 <= seconds t <= 59
  /\ timezone t = "UTC".
Proof.
  intros H. apply returned_parse_time in H.
  pose proof (valid_time_bounds s t H).
  pose proof (valid_time_range s t H) as [_ Htz]. repeat split; tauto || lia.
Qed.

Lemma time_invariant_witness :
  returned (parse_time "23:59:59") = Some (Time_ 23 59 59)
  /\ 0 <= hours (Time_ 23 59 59) <= 23.
Proof.
  split; [reflexivity |].
  apply (time_invariant "23:59:59" (Time_ 23 59 59)). reflexivity.
Defined.

(** ** What parse_time accepts *)

Lemma digit_val_bounds (c : ascii) (d : Z) :
  digit_val c = Some d -> 0 <= d <= 9.
Proof.
  unfold digit_val.
  destruct ((48 <=? N_of_ascii c) && (N_of_ascii c <=? 57))%N eqn:E;
    [| discriminate].
  apply andb_true_iff in E. destruct E as [E1 E2].
  apply N.leb_le in E1, E2. intros [= <-]. lia.
Qed.

Lemma int_digits_all_digits (s : string) :
  all_digits s = true ->
  forall acc n, 0 <= acc ->
  exists v, int_digits s acc n = (v, (n + N.of_nat (String.length s))%N,
                                  EmptyString)
            /\ 0 <= v.
Proof.
  induction s as [| c s IH]; intros H acc n Hacc.
  - exists acc. cbn. rewrite N.add_0_r. auto.
  - cbn in H. cbn [int_digits].
    destruct (digit_val c) as [d |] eqn:E; [| discriminate].
    pose proof (digit_val_bounds c d E).
    destruct (IH H (10 * acc + d) (n + 1)%N) as (v & Hv & Hpos); [lia |].
    exists v. rewrite Hv. split; [| assumption].
    do 2 f_equal. cbn [String.length]. lia.
Qed.

Lemma int_opt_leading_digit (c : ascii) (s : string) (d : Z) :
  digit_val c = Some d -> int_opt (String c s) = int_unsigned (String c s).
Proof.
  destruct c as [[] [] [] [] [] [] [] []]; try discriminate;
    intros _; reflexivity.
Qed.

(** A field of decimal digits only, at most [int_max_str_digits] of them,
    is accepted by [int], with a value that is not negative. *)
Lemma int_opt_digits_only (f : string) :
  digits_only f = true ->
  (N.of_nat (String.length f) <= int_max_str_digits)%N ->
  exists v, int_opt f = Some v /\ 0 <= v.
Proof.
  unfold digits_only. destruct f as [| c s]; [discriminate |].
  cbn [String.eqb negb andb all_digits]. intros H Hlen.
  destruct (digit_val c) as [d |] eqn:E; [| discriminate].
  rewrite (int_opt_leading_digit c s d E). cbn [int_unsigned]. rewrite E.
  pose proof (digit_val_bounds c d E).
  destruct (int_digits_all_digits s H d 1%N) as (v & Hv & Hpos); [lia |].
  rewrite Hv. cbn [all_space andb].
  replace (_ <=? int_max_str_digits)%N with true.
  - exists v. auto.
  - symmetry. apply N.leb_le. cbn [String.length] in Hlen. lia.
Qed.

(** C4, as amended: [parse_time] succeeds exactly on the strings of two or
    three colon-separated fields, each an integer literal as [int] reads it
    (base 10; white space around the literal, a sign and single
    underscores between digits are allowed), whose values are in range,
    the seconds being 0 when the field is missing; in particular fields of
    decimal digits only (at most 4300) are accepted.  Any other number of
    fields and any value out of range, as in [24:00] and [12:60], fail with
    [TimeFormatError]. *)
Theorem parse_time_accepts (s : string) :
  (forall t, valid_time s t <->
     exists h m x, field_values (split ":" s) = Some (h, m, x)
                   /\ 0 <= h < 24 /\ 0 <= m < 60 /\ 0 <= x < 60
                   /\ t = Time_ h m x)
  /\ (forall f, In f (split ":" s) -> digits_only f = true ->
        (N.of_nat (String.length f) <= int_max_str_digits)%N ->
        exists v, int_opt f = Some v /\ 0 <= v)
  /\ (List.length (split ":" s) <> 2%nat ->
      List.length (split ":" s) <> 3%nat ->
      outcome (parse_time_body s) = inl (TimeFormatError invalid_format_msg))
  /\ (forall h m x, field_values (split ":" s) = Some (h, m, x) ->
        ~ (0 <= h < 24 /\ 0 <= m < 60 /\ 0 <= x < 60) ->
        outcome (parse_time_body s) = inl (TimeFormatError out_of_range_msg))
  /\ outcome (parse_time_body "24:00")
     = inl (TimeFormatError out_of_range_msg)
  /\ outcome (parse_time_body "12:60")
     = inl (TimeFormatError out_of_range_msg)
  /\ outcome (parse_time_body "abc")
     = inl (TimeFormatError invalid_format_msg).
Proof.
  split; [| split; [| split; [| split; [| repeat split]]]].
  - intros t. unfold valid_time. rewrite parse_time_cases.
    unfold field_values.
    destruct (split ":" s) as [| a [| b [| c [| d l]]]];
      try (split; [discriminate | intros (h & m & x & [=] & _)]).
    + destruct (int_opt a) as [h |], (int_opt b) as [m |];
        try (split; [discriminate | intros (h' & m' & x & [=] & _)]).
      destruct (in_range h m 0) eqn:E; split.
      * intros [= <-]. exists h, m, 0.
        apply in_range_bounds in E. tauto.
      * intros (h' & m' & x & [= <- <- <-] & _ & _ & _ & ->). reflexivity.
      * discriminate.
      * intros (h' & m' & x & [= <- <- <-] & Hb).
        assert (in_range h m 0 = true) by (apply in_range_bounds; tauto).
        congruence.
    + destruct (int_opt a) as [h |], (int_opt b) as [m |],
        (int_opt c) as [x |];
        try (split; [discriminate | intros (h' & m' & x' & [=] & _)]).
      destruct (in_range h m x) eqn:E; split.
      * intros [= <-]. exists h, m, x.
        apply in_range_bounds in E. tauto.
      * intros (h' & m' & x' & [= <- <- <-] & _ & _ & _ & ->). reflexivity.
      * discriminate.
      * intros (h' & m' & x' & [= <- <- <-] & Hb).
        assert (in_range h m x = true) by (apply in_range_bounds; tauto).
        congruence.
  - intros f _. apply int_opt_digits_only.
  - intros H2 H3. rewrite parse_time_cases.
    destruct (split ":" s) as [| a [| b [| c [| d l]]]];
      try reflexivity; cbn in H2, H3; congruence.
  - intros h m x Hf Hb. rewrite parse_time_cases. unfold field_values in Hf.
    destruct (split ":" s) as [| a [| b [| c [| d l]]]]; try discriminate.
    + destruct (int_opt a), (int_opt b); try discriminate.
      injection Hf as -> -> <-.
      destruct (in_range h m 0) eqn:E; [| reflexivity].
      apply in_range_bounds in E. tauto.
    + destruct (int_opt a), (int_opt b), (int_opt c); try discriminate.
      injection Hf as -> -> ->.
      destruct (in_range h m x) eqn:E; [| reflexivity].
      apply in_range_bounds in E. tauto.
Qed.

Lemma parse_time_accepts_witness :
  valid_time "07:05" (Time_ 7 5 0)
  /\ exists h m x, field_values (split ":" "07:05") = Some (h, m, x)
                   /\ 0 <= h < 24 /\ 0 <= m < 60 /\ 0 <= x < 60
                   /\ Time_ 7 5 0 = Time_ h m x.
Proof.
  split; [reflexivity |].
  apply (proj1 (parse_time_accepts "07:05") (Time_ 7 5 0)). reflexivity.
Defined.

(** C4 as stated fails: fields that hold more than an integer literal, a
    space before or after the digits or a sign, are accepted. *)
Lemma parse_time_lenient_fields :
  digits_only " 7" = false
  /\ valid_time " 7:5" (Time_ 7 5 0)
  /\ digits_only "30 " = false
  /\ digits_only "+9" = false
  /\ valid_time "+9:30 " (Time_ 9 30 0).
Proof. repeat split. Qed.

(** ** military_to_standard_time *)

Lemma str_unpadded (n : Z) : 0 <= n < 100 -> str n = unpadded n.
Proof.
  intros Hn. apply String.eqb_eq.
  apply (Z_range_forallb (fun n => String.eqb (str n) (unpadded n)) 100);
    [vm_compute; reflexivity | lia].
Qed.

Lemma returned_military_to_standard_time (s : string) (t : Time) :
  valid_time s t ->
  returned (military_to_standard_time s false)
  = Some (str (hour12 (hours t)) ++ ":" ++ format_02d (minutes t) ++ ":"
          ++ format_02d (seconds t) ++ " " ++ meridiem (hours t)).
Proof.
  intros H. unfold military_to_standard_time, military_to_standard_time_body.
  rewrite returned_validate, outcome_bind, (outcome_parse_time s t H).
  unfold getattr. rewrite !bind_ret_l. cbn [outcome ret snd].
  do 2 f_equal. unfold hour12, HOURS_IN_HALF_DAY.
  pose proof (valid_time_bounds s t H) as (Hh & _).
  destruct (hours t =? 0) eqn:E0; [reflexivity |].
  destruct (hours t =? 12) eqn:E12; [| reflexivity].
  apply Z.eqb_eq in E12. rewrite E12. reflexivity.
Qed.

(** C2: for a valid military time, [military_to_standard_time] without
    [use_24h] chooses AM for hours below 12 and PM otherwise, maps hour 0
    to 12, hour 12 to 12, hours above 12 to the hour minus 12 and leaves
    the other hours, and renders the hour without padding and the minutes
    and seconds with two digits; the three boundary examples hold. *)
Theorem military_to_standard_time_spec (s : string) (t : Time) :
  valid_time s t ->
  returned (military_to_standard_time s false)
  = Some (unpadded (hour12 (hours t)) ++ ":" ++ two_digits (minutes t) ++ ":"
          ++ two_digits (seconds t) ++ " " ++ meridiem (hours t))
  /\ 1 <= hour12 (hours t) <= 12
  /\ returned (military_to_standard_time "00:00:00" false)
     = Some "12:00:00 AM"
  /\ returned (military_to_standard_time "12:00:00" false)
     = Some "12:00:00 PM"
  /\ returned (military_to_standard_time "13:30:00" false)
     = Some "1:30:00 PM".
Proof.
  intros H. pose proof (valid_time_bounds s t H) as (Hh & Hm & Hs).
  assert (H12 : 1 <= hour12 (hours t) <= 12).
  { unfold hour12.
    destruct (hours t =? 0) eqn:E0; [lia |].
    destruct (hours t =? 12) eqn:E12; [lia |].
    destruct (hours t >? 12) eqn:Egt.
    - apply Z.gtb_lt in Egt. lia.
    - apply Z.eqb_neq in E0, E12. rewrite Z.gtb_ltb in Egt.
      apply Z.ltb_ge in Egt. lia. }
  repeat split; try reflexivity; try lia.
  rewrite (returned_military_to_standard_time s t H).
  rewrite str_unpadded by lia.
  rewrite !format_02d_two_digits by lia. reflexivity.
Qed.

Lemma military_to_standard_time_spec_witness :
  valid_time "13:30:00" (Time_ 13 30 0)
  /\ returned (military_to_standard_time "13:30:00" false)
     = Some (unpadded (hour12 13) ++ ":" ++ two_digits 30 ++ ":"
             ++ two_digits 0 ++ " " ++ meridiem 13).
Proof.
  split; [reflexivity |].
  apply (military_to_standard_time_spec "13:30:00" (Time_ 13 30 0)).
  reflexivity.
Defined.

(** ** The matcher *)

Lemma append_nil_r (s : string) : s ++ "" = s.
Proof. induction s as [| a s IH]; cbn; [reflexivity | now rewrite IH]. Qed.

Lemma append_assoc (a b c : string) : (a ++ b) ++ c = a ++ (b ++ c).
Proof. induction a as [| x a IH]; cbn; [reflexivity | now rewrite IH]. Qed.

Lemma length_append (a b : string) :
  String.length (a ++ b) = (String.length a + String.length b)%nat.
Proof. induction a as [| x a IH]; cbn; [reflexivity | now rewrite IH]. Qed.

(** Whatever the matcher returns comes from a way of reading the text by
    the grammar of the pattern. *)
Lemma run_sound (ic : bool) (r : regex) :
  forall pos s g k out,
    run ic r pos s g k = Some out ->
    exists c rest g',
      s = c ++ rest /\ matches ic r pos c rest g g'
      /\ k (pos + String.length c)%nat c rest g' = Some out.
Proof.
  induction r as [x | lo hi | r1 IH1 r2 IH2 | r1 IH1 r2 IH2 | r1 IH1
                 | n r1 IH1 | | |];
    intros pos s g k out H; cbn [run] in H.
  - destruct s as [| a s']; [discriminate |].
    destruct (lit_matches ic x a) eqn:E; [| discriminate].
    exists (String a ""), s', g. cbn. rewrite Nat.add_1_r. eauto 6.
  - destruct s as [| a s']; [discriminate |].
    destruct (range_matches lo hi a) eqn:E; [| discriminate].
    exists (String a ""), s', g. cbn. rewrite Nat.add_1_r. eauto 6.
  - apply IH1 in H. destruct H as (c1 & s1 & g1 & -> & M1 & H).
    apply IH2 in H. destruct H as (c2 & s2 & g2 & -> & M2 & H).
    exists (c1 ++ c2), s2, g2. rewrite append_assoc, length_append.
    rewrite Nat.add_assoc. split; [reflexivity |]. split; [| exact H].
    cbn. exists c1, c2, g1. auto.
  - destruct (run ic r1 pos s g k) as [o |] eqn:E.
    + injection H as ->. apply IH1 in E.
      destruct E as (c & rest & g' & -> & M & E).
      exists c, rest, g'. cbn. auto.
    + apply IH2 in H. destruct H as (c & rest & g' & -> & M & H).
      exists c, rest, g'. cbn. auto.
  - destruct (run ic r1 pos s g k) as [o |] eqn:E.
    + injection H as ->. apply IH1 in E.
      destruct E as (c & rest & g' & -> & M & E).
      exists c, rest, g'. cbn. auto.
    + exists "", s, g. cbn. rewrite Nat.add_0_r. auto.
  - apply IH1 in H. destruct H as (c & rest & g' & -> & M & H).
    exists c, rest, ((n, c) :: g'). cbn. eauto.
  - destruct (Nat.eqb pos 0) eqn:E; [| discriminate].
    apply Nat.eqb_eq in E. exists "", s, g. cbn. rewrite Nat.add_0_r. auto.
  - destruct (at_eol s) eqn:E; [| discriminate].
    exists "", s, g. cbn. rewrite Nat.add_0_r. auto.
  - destruct (at_eos s) eqn:E; [| discriminate].
    exists "", s, g. cbn. rewrite Nat.add_0_r. auto.
Qed.

(** Groups set before the match, and the offset of a pattern without [^],
    do not change what the matcher does. *)
Lemma run_frame (ic : bool) (g0 : caps) (r : regex) :
  bol_free r = true ->
  forall pos1 pos2 s g k1 k2,
    (forall p1 p2 c s' g',
        k2 p2 c s' (g' ++ g0)%list
        = option_map (fun x => (x ++ g0)%list) (k1 p1 c s' g')) ->
    run ic r pos2 s (g ++ g0)%list k2
    = option_map (fun x => (x ++ g0)%list) (run ic r pos1 s g k1).
Proof.
  induction r as [x | lo hi | r1 IH1 r2 IH2 | r1 IH1 r2 IH2 | r1 IH1
                 | n r1 IH1 | | |];
    intros Hb pos1 pos2 s g k1 k2 Hk; cbn [run]; cbn [bol_free] in Hb.
  - destruct s as [| a s']; [reflexivity |].
    destruct (lit_matches ic x a); [apply Hk | reflexivity].
  - destruct s as [| a s']; [reflexivity |].
    destruct (range_matches lo hi a); [apply Hk | reflexivity].
  - apply andb_true_iff in Hb. destruct Hb as [Hb1 Hb2].
    apply (IH1 Hb1). intros p1 p2 c s' g'.
    apply (IH2 Hb2). intros q1 q2 c' s'' g''. apply Hk.
  - apply andb_true_iff in Hb. destruct Hb as [Hb1 Hb2].
    rewrite (IH1 Hb1 pos1 pos2 s g k1 k2 Hk).
    rewrite (IH2 Hb2 pos1 pos2 s g k1 k2 Hk).
    destruct (run ic r1 pos1 s g k1); reflexivity.
  - rewrite (IH1 Hb pos1 pos2 s g k1 k2 Hk).
    destruct (run ic r1 pos1 s g k1); [reflexivity | apply Hk].
  - apply (IH1 Hb). intros p1 p2 c s' g'.
    apply (Hk p1 p2 c s' ((n, c) :: g')).
  - discriminate.
  - destruct (at_eol s); [apply Hk | reflexivity].
  - destruct (at_eos s); [apply Hk | reflexivity].
Qed.

(** ** The pattern of standard time, from texts to matches *)

Lemma caps_eqb_eq (a b : caps) : caps_eqb a b = true -> a = b.
Proof.
  revert b. induction a as [| [i x] a IH]; intros [| [j y] b]; cbn;
    try discriminate; [reflexivity |].
  rewrite !andb_true_iff. intros [[H1 H2] H3].
  apply Nat.eqb_eq in H1. apply String.eqb_eq in H2.
  rewrite (IH b H3). congruence.
Qed.

Lemma mem_In (x : string) (l : list string) : mem x l = true <-> In x l.
Proof.
  unfold mem. rewrite existsb_exists. split.
  - intros (y & Hy & E). apply String.eqb_eq in E. now subst.
  - intros H. exists x. split; [assumption | apply String.eqb_refl].
Qed.

Lemma in_range_Z (z : Z) (lo n : nat) :
  In z (range_Z lo n) <-> Z.of_nat lo <= z < Z.of_nat (lo + n).
Proof.
  unfold range_Z. rewrite in_map_iff. split.
  - intros (k & <- & Hk). apply in_seq in Hk. lia.
  - intros H. exists (Z.to_nat z). split; [lia |]. apply in_seq. lia.
Qed.

Lemma pattern_parts :
  standard_time_pattern
  = (Bol @ Group 1 hour_re @ Lit ":" @ Group 2 minute_re @ tail_re)%re.
Proof. reflexivity. Qed.

Lemma run_hour (h : string) :
  In h hour_texts ->
  forall R pos rest g k,
    run true (Group 1 hour_re @ Lit ":" @ R) pos (h ++ String ":" rest) g k
    = run true R (String.length h + 1 + pos) rest ((1%nat, h) :: g)
        (fun p c s' g' => k p (h ++ String ":" c) s' g').
Proof.
  intros Hin R pos rest g k. vm_compute in Hin.
  repeat (destruct Hin as [<- | Hin];
          [cbn; try reflexivity;
           match goal with
           | |- context [run true R ?p ?s ?g ?k] =>
               destruct (run true R p s g k); reflexivity
           end |]).
  contradiction.
Qed.

Lemma run_minute (m : string) :
  In m minute_texts ->
  forall R pos rest g k,
    run true (Group 2 minute_re @ R) pos (m ++ rest) g k
    = run true R (2 + pos) rest ((2%nat, m) :: g)
        (fun p c s' g' => k p (m ++ c) s' g').
Proof.
  intros Hin R pos rest g k. vm_compute in Hin.
  repeat (destruct Hin as [<- | Hin]; [reflexivity |]).
  contradiction.
Qed.

Lemma tails_ok : forallb tail_ok tails = true.
Proof. vm_compute. reflexivity. Qed.

Lemma in_tails (colon x sp mer nl : string) :
  optional ":" colon -> In x second_texts -> optional " " sp ->
  In mer meridiem_texts -> optional (String newline "") nl ->
  In (colon ++ x ++ sp ++ mer ++ nl, tail_caps x mer) tails.
Proof.
  intros Hc Hx Hs Hm Hn. unfold tails.
  apply in_flat_map. exists colon. split; [destruct Hc; subst; cbn; auto |].
  apply in_flat_map. exists x. split; [assumption |].
  apply in_flat_map. exists sp. split; [destruct Hs; subst; cbn; auto |].
  apply in_flat_map. exists mer. split; [assumption |].
  apply in_map_iff. exists nl. split; [reflexivity |].
  destruct Hn; subst; cbn; auto.
Qed.

Lemma run_tail (colon x sp mer nl : string) :
  optional ":" colon -> In x second_texts -> optional " " sp ->
  In mer meridiem_texts -> optional (String newline "") nl ->
  forall pos g k,
    (forall p c s' g', k p c s' g' = Some g') ->
    run true tail_re pos (colon ++ x ++ sp ++ mer ++ nl) g k
    = Some (tail_caps x mer ++ g)%list.
Proof.
  intros Hc Hx Hs Hm Hn pos g k Hk.
  pose proof (in_tails colon x sp mer nl Hc Hx Hs Hm Hn) as Hin.
  pose proof tails_ok as Hall. rewrite forallb_forall in Hall.
  specialize (Hall _ Hin). unfold tail_ok in Hall. cbn [fst snd] in Hall.
  change g with ([] ++ g)%list at 1.
  rewrite (run_frame true g tail_re eq_refl 0%nat pos _ [] final k).
  - destruct (run true tail_re 0 _ [] final) as [g1 |]; [| discriminate].
    apply caps_eqb_eq in Hall. subst g1. reflexivity.
  - intros p1 p2 c s' g'. rewrite Hk. reflexivity.
Qed.

Lemma run_bol (ic : bool) (R : regex) (s : string) (g : caps) (k : cont) :
  run ic (Bol @ R) 0 s g k = run ic R 0 s g k.
Proof. reflexivity. Qed.

Lemma standard_match_complete (s h m x mer : string) :
  standard_form s h m x mer ->
  In h hour_texts -> In m minute_texts -> In x second_texts ->
  In mer meridiem_texts ->
  re_match true standard_time_pattern s = Some (standard_caps h m x mer).
Proof.
  intros (colon & sp & nl & -> & Hc & Hs & Hn) Hh Hm Hx Hmer.
  unfold re_match. rewrite pattern_parts, run_bol.
  change (h ++ ":" ++ m ++ colon ++ x ++ sp ++ mer ++ nl)
    with (h ++ String ":" (m ++ colon ++ x ++ sp ++ mer ++ nl)).
  rewrite (run_hour h Hh), (run_minute m Hm).
  apply (run_tail colon x sp mer nl Hc Hx Hs Hmer Hn).
  reflexivity.
Qed.

(** *** The texts of the fields are in the tables *)

Lemma hour_text_In (hn : Z) (h : string) :
  hour_text hn h -> In h hour_texts.
Proof.
  intros [Hr [-> | ->]]; unfold hour_texts; apply in_or_app;
    [left | right]; apply in_map; apply in_range_Z; cbn; lia.
Qed.

Lemma minute_text_In (mn : Z) (m : string) :
  minute_text mn m -> In m minute_texts.
Proof.
  intros [Hr ->]. unfold minute_texts. apply in_map, in_range_Z. cbn. lia.
Qed.

Lemma seconds_text_In (sn : option Z) (x : string) :
  seconds_text sn x -> In x second_texts.
Proof.
  unfold second_texts. destruct sn as [n |]; cbn [seconds_text].
  - intros [Hr [-> | ->]]; right; apply in_or_app; [left | right];
      apply in_map, in_range_Z; cbn; lia.
  - intros ->. left. reflexivity.
Qed.

Lemma upper_char_A (a : ascii) :
  upper_char a = "A"%char -> a = "A"%char \/ a = "a"%char.
Proof.
  destruct a as [[] [] [] [] [] [] [] []]; vm_compute; intros H;
    (discriminate H || auto).
Qed.

Lemma upper_char_P (a : ascii) :
  upper_char a = "P"%char -> a = "P"%char \/ a = "p"%char.
Proof.
  destruct a as [[] [] [] [] [] [] [] []]; vm_compute; intros H;
    (discriminate H || auto).
Qed.

Lemma upper_char_M (a : ascii) :
  upper_char a = "M"%char -> a = "M"%char \/ a = "m"%char.
Proof.
  destruct a as [[] [] [] [] [] [] [] []]; vm_compute; intros H;
    (discriminate H || auto).
Qed.

Lemma meridiem_text_In (pm : bool) (mer : string) :
  meridiem_text pm mer -> In mer meridiem_texts.
Proof.
  unfold meridiem_text.
  destruct mer as [| a [| b [| c mer]]]; destruct pm; cbn [upper];
    try discriminate; intros [= Ha Hb].
  - apply upper_char_P in Ha. apply upper_char_M in Hb.
    destruct Ha, Hb; subst; cbn; tauto.
  - apply upper_char_A in Ha. apply upper_char_M in Hb.
    destruct Ha, Hb; subst; cbn; tauto.
Qed.

(** *** What [int] makes of the texts of the fields *)

Lemma int_opt_two_digits (n : Z) :
  0 <= n < 100 -> int_opt (two_digits n) = Some n.
Proof.
  intros Hn.
  assert (H : match int_opt (two_digits n) with
              | Some v => v =? n
              | None => false
              end = true).
  { apply (Z_range_forallb
             (fun n => match int_opt (two_digits n) with
                       | Some v => v =? n
                       | None => false
                       end) 100); [vm_compute; reflexivity | lia]. }
  destruct (int_opt (two_digits n)); [| discriminate].
  apply Z.eqb_eq in H. congruence.
Qed.

Lemma int_opt_unpadded (n : Z) :
  0 <= n < 100 -> int_opt (unpadded n) = Some n.
Proof.
  intros Hn.
  assert (H : match int_opt (unpadded n) with
              | Some v => v =? n
              | None => false
              end = true).
  { apply (Z_range_forallb
             (fun n => match int_opt (unpadded n) with
                       | Some v => v =? n
                       | None => false
                       end) 100); [vm_compute; reflexivity | lia]. }
  destruct (int_opt (unpadded n)); [| discriminate].
  apply Z.eqb_eq in H. congruence.
Qed.

Lemma two_digits_not_empty (n : Z) : two_digits n <> "".
Proof. discriminate. Qed.

Lemma unpadded_not_empty (n : Z) : unpadded n <> "".
Proof. unfold unpadded. destruct (n <? 10); discriminate. Qed.

(** *** standard_to_military_time on the texts the pattern accepts *)

Lemma returned_standard_to_military_time
  (s h m x mer : string) (hn mn : Z) (sn : option Z) (pm : bool) :
  standard_form s h m x mer ->
  hour_text hn h -> minute_text mn m -> seconds_text sn x ->
  meridiem_text pm mer ->
  returned (standard_to_military_time s)
  = Some (hms (hour24 hn pm) mn (seconds_value sn)).
Proof.
  intros Hf Hh Hm Hx Hmer.
  unfold standard_to_military_time, standard_to_military_time_body.
  rewrite returned_validate.
  rewrite (standard_match_complete s h m x mer Hf
             (hour_text_In _ _ Hh) (minute_text_In _ _ Hm)
             (seconds_text_In _ _ Hx) (meridiem_text_In _ _ Hmer)).
  assert (Eh : int_opt h = Some hn).
  { destruct Hh as [Hr [-> | ->]];
      [apply int_opt_unpadded | apply int_opt_two_digits]; lia. }
  assert (Em : int_opt m = Some mn).
  { destruct Hm as [Hr ->]. apply int_opt_two_digits. lia. }
  assert (Ex : match (if String.eqb x "" then None else Some x) with
               | None | Some EmptyString => ret 0
               | Some t => int t
               end = ret (seconds_value sn)).
  { destruct sn as [n |]; cbn [seconds_text seconds_value] in *.
    - destruct Hx as [Hr Hx].
      assert (En : int_opt x = Some n)
        by (destruct Hx as [-> | ->];
            [apply int_opt_two_digits | apply int_opt_unpadded]; lia).
      assert (Hne : x <> "")
        by (destruct Hx as [-> | ->];
            [apply two_digits_not_empty | apply unpadded_not_empty]).
      destruct x as [| a x']; [congruence |].
      cbn [String.eqb]. unfold int. rewrite En. reflexivity.
    - subst x. reflexivity. }
  unfold standard_caps, tail_caps.
  assert (G3 : group 3 ((4%nat, mer)
                        :: (if String.eqb x "" then [] else [(3%nat, x)])
                        ++ [(2%nat, m); (1%nat, h)])%list
               = if String.eqb x "" then None else Some x)
    by (destruct (String.eqb x ""); reflexivity).
  assert (G1 : group 1 ((4%nat, mer)
                        :: (if String.eqb x "" then [] else [(3%nat, x)])
                        ++ [(2%nat, m); (1%nat, h)])%list = Some h)
    by (destruct (String.eqb x ""); reflexivity).
  assert (G2 : group 2 ((4%nat, mer)
                        :: (if String.eqb x "" then [] else [(3%nat, x)])
                        ++ [(2%nat, m); (1%nat, h)])%list = Some m)
    by (destruct (String.eqb x ""); reflexivity).
  cbn [app]. rewrite G1, G2, G3, Ex. cbn [group Nat.eqb].
  unfold int_group, int. rewrite Eh, Em. rewrite !bind_ret_l.
  cbn [upper_group]. rewrite bind_ret_l. cbn [outcome ret snd].
  unfold meridiem_text in Hmer. rewrite Hmer.
  unfold hour24, HOURS_IN_HALF_DAY. destruct pm; cbn [negb andb String.eqb];
    destruct (hn =? 12); reflexivity.
Qed.

Lemma hour24_bounds (hn : Z) (pm : bool) :
  1 <= hn <= 12 -> 0 <= hour24 hn pm < 24.
Proof.
  intros H. unfold hour24.
  destruct pm; cbn [negb andb]; destruct (hn =? 12) eqn:E; cbn [negb]; lia.
Qed.

(** C3: on every text of the standard-time grammar, whose fields stand for
    the hour [hn], the minute [mn], the seconds [sn] (0 when absent) and
    the meridiem [pm], [standard_to_military_time] adds 12 to the hour when
    the meridiem is PM and the hour is not 12, makes the hour 0 when the
    meridiem is AM and the hour is 12, leaves it otherwise, and renders
    zero-padded HH:MM:SS; the two examples of noon and midnight hold. *)
Theorem standard_to_military_time_spec
  (s h m x mer : string) (hn mn : Z) (sn : option Z) (pm : bool) :
  standard_form s h m x mer ->
  hour_text hn h -> minute_text mn m -> seconds_text sn x ->
  meridiem_text pm mer ->
  returned (standard_to_military_time s)
  = Some (clock (hour24 hn pm) mn (seconds_value sn))
  /\ returned (standard_to_military_time "12:00:00 AM") = Some "00:00:00"
  /\ returned (standard_to_military_time "12:00:00 PM") = Some "12:00:00".
Proof.
  intros Hf Hh Hm Hx Hmer. repeat split; try reflexivity.
  rewrite (returned_standard_to_military_time s h m x mer hn mn sn pm)
    by assumption.
  f_equal. pose proof (hour24_bounds hn pm (proj1 Hh)).
  destruct Hm as [Hm _].
  assert (0 <= seconds_value sn < 60)
    by (destruct sn; cbn in *; [tauto | lia]).
  apply hms_clock; lia.
Qed.

Lemma standard_to_military_time_spec_witness :
  standard_form "01:30pm" "01" "30" "" "pm"
  /\ returned (standard_to_military_time "01:30pm")
     = Some (clock (hour24 1 true) 30 (seconds_value None)).
Proof.
  assert (F : standard_form "01:30pm" "01" "30" "" "pm")
    by (exists "", "", ""; unfold optional; auto).
  split; [exact F |].
  apply (standard_to_military_time_spec
           "01:30pm" "01" "30" "" "pm" 1 30 None true F).
  - split; [lia | right; reflexivity].
  - split; [lia | reflexivity].
  - reflexivity.
  - reflexivity.
Defined.

(** ** The round trip *)

Lemma split_not_nil (sep : ascii) (s : string) : split sep s <> [].
Proof.
  destruct s as [| c s]; cbn; [discriminate |].
  destruct (Ascii.eqb c sep); [discriminate |].
  destruct (split sep s); discriminate.
Qed.

Lemma split_cons (sep c : ascii) (s p : string) (ps : list string) :
  Ascii.eqb c sep = false -> split sep s = p :: ps ->
  split sep (String c s) = String c p :: ps.
Proof. intros E H. cbn. rewrite E, H. reflexivity. Qed.

Lemma digit_char_not_colon (d : Z) :
  0 <= d < 10 -> Ascii.eqb (digit_char d) ":" = false.
Proof.
  intros H.
  assert (E : negb (Ascii.eqb (digit_char d) ":") = true)
    by (apply (Z_range_forallb
                 (fun d => negb (Ascii.eqb (digit_char d) ":")) 10);
        [reflexivity | lia]).
  now apply negb_true_iff in E.
Qed.

Lemma split_two_digits (n : Z) (rest : string) :
  0 <= n < 100 ->
  split ":" (two_digits n ++ ":" ++ rest) = two_digits n :: split ":" rest.
Proof.
  intros H. unfold two_digits. cbn [append].
  apply split_cons; [apply digit_char_not_colon; euclid |].
  apply split_cons; [apply digit_char_not_colon; euclid |].
  reflexivity.
Qed.

Lemma split_two_digits_end (n : Z) :
  0 <= n < 100 -> split ":" (two_digits n) = [two_digits n].
Proof.
  intros H. unfold two_digits.
  apply split_cons; [apply digit_char_not_colon; euclid |].
  apply split_cons; [apply digit_char_not_colon; euclid |].
  reflexivity.
Qed.

Lemma valid_time_clock (h m x : Z) :
  0 <= h < 24 -> 0 <= m < 60 -> 0 <= x < 60 ->
  valid_time (clock h m x) (Time_ h m x).
Proof.
  intros Hh Hm Hx. unfold valid_time, clock. rewrite parse_time_cases.
  rewrite !split_two_digits, split_two_digits_end by lia.
  rewrite !int_opt_two_digits by lia.
  replace (in_range h m x) with true
    by (symmetry; apply in_range_bounds; lia).
  reflexivity.
Qed.




(** ** The pattern of standard time, from matches to texts *)

Ltac break :=
  repeat match goal with
         | H : exists _, _ |- _ => destruct H
         | H : _ /\ _ |- _ => destruct H
         | H : _ \/ _ |- _ => destruct H
         end;
  subst.

Ltac char_cases H a :=
  destruct a as [[] [] [] [] [] [] [] []];
  vm_compute in H; try discriminate H; clear H.

Ltac chars :=
  repeat match goal with
         | H : lit_matches true _ ?a = true |- _ => is_var a; char_cases H a
         | H : range_matches _ _ ?a = true |- _ => is_var a; char_cases H a
         end.

Ltac in_table := apply mem_In; vm_compute; reflexivity.

Lemma matches_hour (pos : nat) (c rest : string) (g g' : caps) :
  matches true (Group 1 hour_re) pos c rest g g' ->
  In c hour_texts /\ g' = (1%nat, c) :: g.
Proof.
  unfold hour_re. cbn [matches]. intros H. break; chars;
    (split; [in_table | reflexivity]).
Qed.

Lemma matches_minute (pos : nat) (c rest : string) (g g' : caps) :
  matches true (Group 2 minute_re) pos c rest g g' ->
  In c minute_texts /\ g' = (2%nat, c) :: g.
Proof.
  unfold minute_re. cbn [matches]. intros H. break; chars;
    (split; [in_table | reflexivity]).
Qed.

Lemma matches_seconds (pos : nat) (c rest : string) (g g' : caps) :
  matches true seconds_re pos c rest g g' ->
  In c second_texts
  /\ g' = ((if String.eqb c "" then [] else [(3%nat, c)]) ++ g)%list.
Proof.
  unfold seconds_re. cbn [matches]. intros H. break; chars;
    (split; [in_table | reflexivity]).
Qed.

Lemma matches_meridiem (pos : nat) (c rest : string) (g g' : caps) :
  matches true meridiem_re pos c rest g g' ->
  In c meridiem_texts /\ g' = (4%nat, c) :: g.
Proof.
  unfold meridiem_re. cbn [matches]. intros H. break; chars;
    (split; [in_table | reflexivity]).
Qed.

Lemma matches_opt_lit (x : ascii) (pos : nat) (c rest : string)
  (g g' : caps) :
  lower x = x -> (forall a, lower a = x -> a = x) ->
  matches true (Opt (Lit x)) pos c rest g g' ->
  optional (String x "") c /\ g' = g.
Proof.
  intros Hx Hl. cbn [matches]. unfold lit_matches, optional.
  intros [(a & -> & E & ->) | [-> ->]]; [| auto].
  apply Ascii.eqb_eq in E. rewrite Hx in E. rewrite (Hl a E). auto.
Qed.

Lemma lower_colon (a : ascii) : lower a = ":"%char -> a = ":"%char.
Proof.
  destruct a as [[] [] [] [] [] [] [] []]; vm_compute; intros H;
    (discriminate H || reflexivity).
Qed.

Lemma lower_space (a : ascii) : lower a = " "%char -> a = " "%char.
Proof.
  destruct a as [[] [] [] [] [] [] [] []]; vm_compute; intros H;
    (discriminate H || reflexivity).
Qed.

Lemma at_eol_optional (s : string) :
  at_eol s = true -> optional (String newline "") s.
Proof.
  unfold optional. destruct s as [| a [| b s]]; cbn; try discriminate; auto.
  intros E. apply Ascii.eqb_eq in E. subst. auto.
Qed.

Lemma matches_tail (pos : nat) (c rest : string) (g g' : caps) :
  matches true tail_re pos c rest g g' ->
  exists colon x sp mer nl,
    c ++ rest = colon ++ x ++ sp ++ mer ++ nl
    /\ optional ":" colon /\ In x second_texts /\ optional " " sp
    /\ In mer meridiem_texts /\ optional (String newline "") nl
    /\ g' = (tail_caps x mer ++ g)%list.
Proof.
  unfold tail_re. cbn [matches].
  intros (c1 & r1 & g1 & -> & M1 & c2 & r2 & g2 & -> & M2
          & c3 & r3 & g3 & -> & M3 & c4 & c5 & g4 & -> & M4
          & He & -> & ->).
  apply (matches_opt_lit ":" 0 c1 "" g g1 eq_refl lower_colon) in M1.
  apply matches_seconds in M2.
  apply (matches_opt_lit " " 0 c3 "" g2 g3 eq_refl lower_space) in M3.
  apply matches_meridiem in M4.
  destruct M1 as [H1 ->], M2 as [H2 ->], M3 as [H3 ->], M4 as [H4 ->].
  exists c1, c2, c3, c4, rest. rewrite append_nil_r, !append_assoc.
  repeat split; try assumption.
  apply at_eol_optional, He.
Qed.

Lemma matches_colon (pos : nat) (c rest : string) (g g' : caps) :
  matches true (Lit ":") pos c rest g g' -> c = ":" /\ g' = g.
Proof.
  cbn [matches]. unfold lit_matches. intros (a & -> & E & ->).
  apply Ascii.eqb_eq in E. rewrite (lower_colon a E). auto.
Qed.

Lemma standard_match_sound (s : string) (g : caps) :
  re_match true standard_time_pattern s = Some g ->
  exists h m x mer,
    standard_form s h m x mer
    /\ In h hour_texts /\ In m minute_texts /\ In x second_texts
    /\ In mer meridiem_texts /\ g = standard_caps h m x mer.
Proof.
  unfold re_match. intros H. apply run_sound in H.
  destruct H as (c & rest & g' & -> & M & F).
  injection F as <-. rewrite pattern_parts in M. cbn [matches] in M.
  destruct M as (c0 & r0 & g0 & -> & (_ & -> & ->)
                 & c1 & r1 & g1 & -> & M1
                 & c2 & r2 & g2 & -> & M2
                 & c3 & c4 & g3 & -> & M3 & M4).
  cbn [matches] in M1, M3.
  destruct M1 as (g1' & M1 & ->), M3 as (g3' & M3 & ->).
  assert (M1' : matches true (Group 1 hour_re) 0 c1 ((c2 ++ c3 ++ c4) ++ rest)
                  [] ((1%nat, c1) :: g1')) by (cbn [matches]; eauto).
  apply matches_hour in M1'. destruct M1' as [H1 E1]. injection E1 as ->.
  apply (matches_colon 0 c2 "" _ _) in M2. destruct M2 as [-> ->].
  assert (M3' : matches true (Group 2 minute_re)
                  (0 + String.length "" + String.length c1
                   + String.length ":") c3 (c4 ++ rest)
                  [(1%nat, c1)] ((2%nat, c3) :: g3'))
    by (cbn [matches]; eauto).
  apply matches_minute in M3'. destruct M3' as [H3 E3]. injection E3 as ->.
  apply matches_tail in M4.
  destruct M4 as (colon & x & sp & mer & nl & E & Hc & Hx & Hs & Hm & Hn & ->).
  exists c1, c3, x, mer. repeat split; try assumption.
  exists colon, sp, nl. repeat split; try assumption.
  rewrite <- E. cbn [append]. rewrite !append_assoc. cbn [append].
  rewrite !append_assoc. reflexivity.
Qed.

(** *** The tables hold texts of the fields only *)

Lemma In_hour_text (h : string) :
  In h hour_texts -> exists hn, hour_text hn h.
Proof.
  unfold hour_texts. intros H. apply in_app_or in H.
  destruct H as [H | H]; apply in_map_iff in H;
    destruct H as (n & <- & Hn); apply in_range_Z in Hn; exists n;
    (split; [cbn in Hn; lia | auto]).
Qed.

Lemma In_minute_text (m : string) :
  In m minute_texts -> exists mn, minute_text mn m.
Proof.
  unfold minute_texts. intros H. apply in_map_iff in H.
  destruct H as (n & <- & Hn). apply in_range_Z in Hn. exists n.
  split; [cbn in Hn; lia | reflexivity].
Qed.

Lemma In_seconds_text (x : string) :
  In x second_texts -> exists sn, seconds_text sn x.
Proof.
  unfold second_texts. intros [<- | H]; [exists None; reflexivity |].
  apply in_app_or in H.
  destruct H as [H | H]; apply in_map_iff in H;
    destruct H as (n & <- & Hn); apply in_range_Z in Hn; exists (Some n);
    (split; [cbn in Hn; lia | auto]).
Qed.

Lemma In_meridiem_text (mer : string) :
  In mer meridiem_texts -> exists pm, meridiem_text pm mer.
Proof.
  intros H. cbn in H.
  destruct H as [<- | [<- | [<- | [<- | H]]]];
    [exists false; reflexivity .. |].
  destruct H as [<- | [<- | [<- | [<- | []]]]]; exists true; reflexivity.
Qed.

Lemma standard_match_accepted (s : string) (g : caps) :
  re_match true standard_time_pattern s = Some g -> standard_accepted s.
Proof.
  intros H. apply standard_match_sound in H.
  destruct H as (h & m & x & mer & Hf & Hh & Hm & Hx & Hmer & _).
  apply In_hour_text in Hh. apply In_minute_text in Hm.
  apply In_seconds_text in Hx. apply In_meridiem_text in Hmer.
  destruct Hh as [hn Hh], Hm as [mn Hm], Hx as [sn Hx], Hmer as [pm Hmer].
  exists h, m, x, mer, hn, mn, sn, pm. auto.
Qed.

Lemma outcome_of_returned {A : Type} (fname : string) (body : Py A) (a : A) :
  returned (validate_time fname body) = Some a -> outcome body = inr a.
Proof.
  rewrite returned_validate. destruct (outcome body); congruence.
Qed.

Lemma grammar_form_standard_form (s h m x mer : string) :
  grammar_form s h m x mer -> standard_form s h m x mer.
Proof.
  intros (sp & Hsp & ->).
  exists (if String.eqb x "" then "" else ":"), sp, "".
  unfold optional. rewrite append_nil_r.
  destruct x as [| c x]; cbn [String.eqb append]; auto 6.
Qed.

(** C5, as amended: [standard_to_military_time] accepts every text of the
    anchored grammar: an hour 1-12 with an optional leading zero, a colon,
    a two-digit minute 00-59, optionally a colon and seconds 0-59 of one
    or two digits, an optional space, then AM or PM in any case, with
    nothing before or after.  A text it accepts begins with such an hour,
    colon and minute and goes on with at most a colon, such seconds, a
    space, such a meridiem and a newline; every other text, such as
    [13:00:00 AM], fails with [TimeFormatError].  Nothing is stated for
    seconds without their colon, a colon without seconds, or a newline at
    the end. *)
Theorem standard_time_accepted (s : string) :
  (grammar_accepted s ->
   exists r, outcome (standard_to_military_time_body s) = inr r)
  /\ ((exists r, outcome (standard_to_military_time_body s) = inr r) ->
      standard_accepted s)
  /\ (~ standard_accepted s ->
      outcome (standard_to_military_time_body s)
      = inl (TimeFormatError invalid_standard_msg))
  /\ outcome (standard_to_military_time_body "13:00:00 AM")
     = inl (TimeFormatError invalid_standard_msg).
Proof.
  split; [| split; [| split; [| reflexivity]]].
  - intros (h & m & x & mer & hn & mn & sn & pm & Hf & Hh & Hm & Hx & Hmer).
    exists (hms (hour24 hn pm) mn (seconds_value sn)).
    apply (outcome_of_returned "standard_to_military_time").
    exact (returned_standard_to_military_time s h m x mer hn mn sn pm
             (grammar_form_standard_form s h m x mer Hf) Hh Hm Hx Hmer).
  - intros [r H]. unfold standard_to_military_time_body in H.
    destruct (re_match true standard_time_pattern s) as [g |] eqn:E;
      [| discriminate].
    exact (standard_match_accepted s g E).
  - intros Hn. unfold standard_to_military_time_body.
    destruct (re_match true standard_time_pattern s) as [g |] eqn:E;
      [| reflexivity].
    destruct Hn. exact (standard_match_accepted s g E).
Qed.

Lemma standard_time_accepted_witness :
  grammar_accepted "01:30pm"
  /\ exists r, outcome (standard_to_military_time_body "01:30pm") = inr r.
Proof.
  assert (A : grammar_accepted "01:30pm").
  { exists "01", "30", "", "pm", 1, 30, None, true.
    split; [exists ""; unfold optional; auto |].
    split; [split; [lia | right; reflexivity] |].
    split; [split; [lia | reflexivity] |].
    split; reflexivity. }
  split; [exact A |].
  apply (proj1 (standard_time_accepted "01:30pm")). exact A.
Defined.

(** C5 as stated fails: a text with seconds of one digit, which the
    pattern of the specification does not match, is accepted. *)
Lemma standard_time_one_digit_seconds :
  re_match true spec_standard_pattern "1:30:5 PM" = None
  /\ outcome (standard_to_military_time_body "1:30:5 PM") = inr "13:30:05".
Proof. repeat split. Qed.

Example spec_standard_pattern_ex :
  map (fun s => match re_match true spec_standard_pattern s with
                | Some _ => true
                | None => false
                end)
    ["1:30:05 PM"; "01:30pm"; "12:00:00 AM"; "9:59 am"; "13:00:00 AM";
     "0:30 AM"; "1:3 PM"; "1:30:00  PM"; "1:30:00 XM"; " 1:30 PM"]
  = [true; true; true; true; false; false; false; false; false; false].
Proof. reflexivity. Qed.

(** * Further properties of the functions *)

(** ** The 24-hour rendering of military_to_standard_time *)

Lemma valid_time_eta (s : string) (t : Time) :
  valid_time s t -> t = Time_ (hours t) (minutes t) (seconds t).
Proof.
  intros H. pose proof (valid_time_range s t H) as [_ Htz].
  destruct t as [h m x tz]. cbn in Htz. subst tz. reflexivity.
Qed.

Lemma returned_use_24h (s : string) (t : Time) :
  valid_time s t ->
  returned (military_to_standard_time s true)
  = Some (clock (hours t) (minutes t) (seconds t)).
Proof.
  intros H. unfold military_to_standard_time, military_to_standard_time_body.
  rewrite returned_validate, outcome_bind, (outcome_parse_time s t H).
  unfold getattr. rewrite !bind_ret_l. cbn [outcome ret snd].
  pose proof (valid_time_bounds s t H) as (Hh & Hm & Hs).
  f_equal. apply hms_clock; lia.
Qed.

(** X1: with [use_24h], [military_to_standard_time] on a valid time
    returns its zero-padded HH:MM:SS form, and on that form it returns the
    same text again. *)
Theorem use_24h_normalises (s : string) (t : Time) :
  valid_time s t ->
  returned (military_to_standard_time s true)
  = Some (clock (hours t) (minutes t) (seconds t))
  /\ returned (military_to_standard_time
                 (clock (hours t) (minutes t) (seconds t)) true)
     = Some (clock (hours t) (minutes t) (seconds t)).
Proof.
  intros H. split; [apply (returned_use_24h s t H) |].
  pose proof (valid_time_bounds s t H) as (Hh & Hm & Hs).
  apply (returned_use_24h _ (Time_ (hours t) (minutes t) (seconds t))).
  apply valid_time_clock; assumption.
Qed.

Lemma use_24h_normalises_witness :
  valid_time "7:5" (Time_ 7 5 0)
  /\ returned (military_to_standard_time "7:5" true) = Some (clock 7 5 0).
Proof.
  split; [reflexivity |].
  apply (use_24h_normalises "7:5" (Time_ 7 5 0)). reflexivity.
Defined.

(** ** Times that parse_time refuses *)

Lemma outcome_military_invalid (s : string) (e : exn) (b : bool) :
  outcome (parse_time_body s) = inl e ->
  outcome (military_to_standard_time_body s b) = inl AttributeError.
Proof.
  intros H. unfold military_to_standard_time_body.
  rewrite outcome_bind, (outcome_parse_time_invalid s e H).
  destruct b; reflexivity.
Qed.

(** X2: when [parse_time] refuses a text, every function that takes it as
    a time returns [None]: the two conversions of a military time, the two
    shifts, and the difference and the duration with the text on either
    side. *)
Theorem invalid_time_returns_None
  (s other : string) (e : exn) (b : bool) (hrs mins secs : Z) :
  outcome (parse_time_body s) = inl e ->
  returned (parse_time s) = None
  /\ returned (military_to_standard_time s b) = None
  /\ returned (add_time s hrs mins secs) = None
  /\ returned (subtract_time s hrs mins secs) = None
  /\ returned (time_difference s other) = None
  /\ returned (time_difference other s) = None
  /\ returned (calculate_duration s other) = None
  /\ returned (calculate_duration other s) = None.
Proof.
  intros H.
  split; [unfold parse_time; rewrite returned_validate, H; reflexivity |].
  split; [unfold military_to_standard_time;
          rewrite returned_validate, (outcome_military_invalid s e b H);
          reflexivity |].
  rewrite returned_add_time, returned_subtract_time,
    !returned_time_difference, !returned_calculate_duration, H.
  repeat split; destruct (outcome (parse_time_body other)); reflexivity.
Qed.

Lemma invalid_time_returns_None_witness :
  outcome (parse_time_body "25:00") = inl (TimeFormatError out_of_range_msg)
  /\ returned (add_time "25:00" 1 0 0) = None.
Proof.
  split; [reflexivity |].
  apply (invalid_time_returns_None "25:00" "10:00"
           (TimeFormatError out_of_range_msg) false 1 0 0).
  reflexivity.
Defined.

(** ** What the user sees *)

Lemma parse_time_body_trace (s : string) : trace (parse_time_body s) = [].
Proof.
  unfold parse_time_body, map_int, int, check_range.
  destruct (split ":" s) as [| a [| b [| c [| d l]]]]; try reflexivity.
  - destruct (int_opt a), (int_opt b); try reflexivity.
    cbn. destruct (negb (in_range z z0 0)); reflexivity.
  - destruct (int_opt a), (int_opt b), (int_opt c); try reflexivity.
    cbn. destruct (negb (in_range z z0 z1)); reflexivity.
Qed.

Lemma parse_time_body_eq (s : string) :
  parse_time_body s = ([], outcome (parse_time_body s)).
Proof.
  pose proof (parse_time_body_trace s) as H. unfold trace, outcome in *.
  destruct (parse_time_body s) as [t r]. cbn in *. now subst.
Qed.

(** X3: on a text that [parse_time] refuses with the exception [e],
    [military_to_standard_time] shows two dialogs: the one of [parse_time]
    for [e] (a time format error or an unexpected error, by the class of
    [e]) and then an unexpected error for the [AttributeError] of its own
    body; on a valid time it shows none and logs the two successes. *)
Theorem military_to_standard_time_dialogs (s : string) (b : bool) :
  (forall e, outcome (parse_time_body s) = inl e ->
     trace (military_to_standard_time s b)
     = [LogError (error_kind e) "parse_time" e;
        ShowError (error_title e) e;
        LogError "Unexpected error" "military_to_standard_time"
          AttributeError;
        ShowError "Unexpected Error" AttributeError])
  /\ (forall t, valid_time s t ->
        trace (military_to_standard_time s b)
        = [LogInfo "parse_time"; LogInfo "military_to_standard_time"]).
Proof.
  split.
  - intros e H.
    unfold military_to_standard_time, military_to_standard_time_body,
      parse_time.
    rewrite (parse_time_body_eq s), H.
    destruct e, b; reflexivity.
  - intros t H. unfold valid_time in H.
    unfold military_to_standard_time, military_to_standard_time_body,
      parse_time.
    rewrite (parse_time_body_eq s), H.
    destruct b; reflexivity.
Qed.

Lemma military_to_standard_time_dialogs_witness :
  outcome (parse_time_body "ab:cd") = inl ValueError
  /\ dialogs (trace (military_to_standard_time "ab:cd" false))
     = [ShowError "Unexpected Error" ValueError;
        ShowError "Unexpected Error" AttributeError].
Proof.
  split; [reflexivity |].
  rewrite (proj1 (military_to_standard_time_dialogs "ab:cd" false)
             ValueError eq_refl).
  reflexivity.
Defined.

(** ** The seconds field of parse_time *)

Lemma split_app (sep : ascii) (a b : string) :
  split sep (a ++ String sep b) = (split sep a ++ split sep b)%list.
Proof.
  induction a as [| c a IH]; cbn.
  - rewrite Ascii.eqb_refl. reflexivity.
  - destruct (Ascii.eqb c sep); rewrite IH; [reflexivity |].
    pose proof (split_not_nil sep a) as Hn.
    destruct (split sep a); [congruence | reflexivity].
Qed.

(** X4: a time of two fields and the same text followed by [:00] (or
    [:0]) have the same outcome in [parse_time]: the seconds that are
    missing count as 0. *)
Theorem parse_time_seconds_default (s : string) :
  List.length (split ":" s) = 2%nat ->
  outcome (parse_time_body (s ++ ":00")) = outcome (parse_time_body s)
  /\ outcome (parse_time_body (s ++ ":0")) = outcome (parse_time_body s).
Proof.
  intros H. rewrite !parse_time_cases.
  change (s ++ ":00") with (s ++ String ":" "00").
  change (s ++ ":0") with (s ++ String ":" "0").
  rewrite !split_app.
  destruct (split ":" s) as [| a [| b [| c l]]]; try discriminate.
  cbn [app split].
  change (int_opt "00") with (Some 0). change (int_opt "0") with (Some 0).
  destruct (int_opt a), (int_opt b); auto.
Qed.

Lemma parse_time_seconds_default_witness :
  List.length (split ":" "09:41") = 2%nat
  /\ outcome (parse_time_body ("09:41" ++ ":00"))
     = outcome (parse_time_body "09:41").
Proof.
  split; [reflexivity |].
  apply (parse_time_seconds_default "09:41"). reflexivity.
Defined.

(** ** add_time and subtract_time, further *)

(** X5: [add_time] and [subtract_time] depend on the components of the
    duration through their total in seconds only: hours, minutes and
    seconds can be given in any mix. *)
Theorem shift_by_total (s : string) (hrs mins secs : Z) :
  returned (add_time s hrs mins secs)
  = returned (add_time s 0 0 (hrs * 3600 + mins * 60 + secs))
  /\ returned (subtract_time s hrs mins secs)
     = returned (subtract_time s 0 0 (hrs * 3600 + mins * 60 + secs)).
Proof.
  rewrite !returned_add_time, !returned_subtract_time.
  replace (duration 0 0 (hrs * 3600 + mins * 60 + secs))
    with (duration hrs mins secs) by (unfold duration; lia).
  split; reflexivity.
Qed.

Lemma instant_None (total : Z) :
  (exists e, instant anchor_day total = inl e)
  <-> ~ (1 <= anchor_day + total / 86400 <= MAXORDINAL).
Proof.
  unfold instant, SECONDS_PER_DAY.
  destruct ((1 <=? anchor_day + total / 86400)
            && (anchor_day + total / 86400 <=? MAXORDINAL)) eqn:E.
  - apply andb_true_iff in E. rewrite !Z.leb_le in E.
    split; [intros [e He]; discriminate | tauto].
  - apply andb_false_iff in E. rewrite !Z.leb_gt in E.
    split; [lia | eauto].
Qed.

(** X6: on a valid time, [add_time] returns [None] exactly when the base
    time plus the duration, counted from the first of January 2000, falls
    before the year 1 or after the year 9999. *)
Theorem add_time_None_iff (s : string) (t : Time) (hrs mins secs : Z) :
  valid_time s t ->
  (returned (add_time s hrs mins secs) = None
   <-> ~ (1 <= anchor_day + (secs_of t + duration hrs mins secs) / 86400
            <= MAXORDINAL)).
Proof.
  intros H. rewrite returned_add_time. unfold valid_time in H. rewrite H.
  rewrite <- instant_None.
  destruct (instant anchor_day (secs_of t + duration hrs mins secs)) as [e | dt].
  - split; eauto.
  - split; [discriminate | intros [e He]; discriminate].
Qed.

Lemma add_time_None_iff_witness :
  valid_time "00:00:00" (Time_ 0 0 0)
  /\ (returned (add_time "00:00:00" (-24 * 730120) 0 0) = None
      <-> ~ (1 <= anchor_day
                  + (secs_of (Time_ 0 0 0) + duration (-24 * 730120) 0 0)
                    / 86400
               <= MAXORDINAL)).
Proof.
  split; [reflexivity |].
  apply (add_time_None_iff "00:00:00" (Time_ 0 0 0)). reflexivity.
Defined.

Lemma secs_of_clock_fields (x : Z) :
  0 <= x < 86400 ->
  secs_of (Time_ (x / 3600) (x mod 3600 / 60) (x mod 60)) = x
  /\ 0 <= x / 3600 < 24 /\ 0 <= x mod 3600 / 60 < 60 /\ 0 <= x mod 60 < 60.
Proof.
  intros H. unfold secs_of, Time_. cbn [hours minutes seconds]. euclid.
Qed.

Lemma valid_time_clock_of_seconds (x : Z) :
  0 <= x < 86400 ->
  valid_time (clock_of_seconds x)
    (Time_ (x / 3600) (x mod 3600 / 60) (x mod 60)).
Proof.
  intros H. destruct (secs_of_clock_fields x H) as (_ & Hh & Hm & Hs).
  apply valid_time_clock; assumption.
Qed.

Lemma clock_of_secs_of (s : string) (t : Time) :
  valid_time s t ->
  clock_of_seconds (secs_of t) = clock (hours t) (minutes t) (seconds t).
Proof.
  intros H. pose proof (valid_time_bounds s t H) as (Hh & Hm & Hs).
  unfold clock_of_seconds, secs_of. f_equal; euclid.
Qed.

Lemma returned_add_time_in_range (s : string) (t : Time) (hrs mins secs : Z) :
  valid_time s t ->
  1 <= anchor_day + (secs_of t + duration hrs mins secs) / 86400
    <= MAXORDINAL ->
  returned (add_time s hrs mins secs)
  = Some (clock_of_seconds ((secs_of t + duration hrs mins secs) mod 86400)).
Proof.
  intros Hv Hr. rewrite returned_add_time. unfold valid_time in Hv.
  rewrite Hv. unfold instant, SECONDS_PER_DAY.
  set (total := secs_of t + duration hrs mins secs) in *.
  replace ((1 <=? anchor_day + total / 86400)
           && (anchor_day + total / 86400 <=? MAXORDINAL)) with true
    by (symmetry; apply andb_true_iff; rewrite !Z.leb_le; lia).
  cbn [dt_hour dt_minute dt_second]. f_equal.
  unfold clock_of_seconds. apply hms_clock; euclid.
Qed.

Lemma returned_subtract_time_in_range
  (s : string) (t : Time) (hrs mins secs : Z) :
  valid_time s t ->
  1 <= anchor_day + (secs_of t - duration hrs mins secs) / 86400
    <= MAXORDINAL ->
  returned (subtract_time s hrs mins secs)
  = Some (clock_of_seconds ((secs_of t - duration hrs mins secs) mod 86400)).
Proof.
  intros Hv Hr. rewrite returned_subtract_time. unfold valid_time in Hv.
  rewrite Hv. unfold instant, SECONDS_PER_DAY.
  set (total := secs_of t - duration hrs mins secs) in *.
  replace ((1 <=? anchor_day + total / 86400)
           && (anchor_day + total / 86400 <=? MAXORDINAL)) with true
    by (symmetry; apply andb_true_iff; rewrite !Z.leb_le; lia).
  cbn [dt_hour dt_minute dt_second]. f_equal.
  unfold clock_of_seconds. apply hms_clock; euclid.
Qed.

(** X7: [subtract_time] undoes [add_time]: when the sum of a valid time
    and a duration is at most 730119 days before or after the day of the
    base time, subtracting the same duration from the result of [add_time]
    returns the base time in zero-padded HH:MM:SS form. *)
Theorem subtract_undoes_add (s : string) (t : Time) (hrs mins secs : Z) :
  valid_time s t ->
  -730119 <= (secs_of t + duration hrs mins secs) / 86400 <= 730119 ->
  exists r,
    returned (add_time s hrs mins secs) = Some r
    /\ returned (subtract_time r hrs mins secs)
       = Some (clock (hours t) (minutes t) (seconds t)).
Proof.
  intros Hv Hq.
  pose proof (secs_of_bounds s t Hv) as Hb.
  set (D := duration hrs mins secs) in *.
  set (x := (secs_of t + D) mod 86400).
  assert (Hx : 0 <= x < 86400) by (unfold x; euclid).
  exists (clock_of_seconds x). split.
  - apply (returned_add_time_in_range s t hrs mins secs Hv).
    fold D. rewrite anchor_day_val, MAXORDINAL_val. lia.
  - destruct (secs_of_clock_fields x Hx) as (Hsx & _).
    rewrite (returned_subtract_time_in_range _ _ hrs mins secs
               (valid_time_clock_of_seconds x Hx)).
    + rewrite Hsx. fold D.
      replace ((x - D) mod 86400) with (secs_of t) by (unfold x; euclid).
      f_equal. apply (clock_of_secs_of s t Hv).
    + rewrite Hsx. fold D. rewrite anchor_day_val, MAXORDINAL_val.
      unfold x. euclid.
Qed.

Lemma subtract_undoes_add_witness :
  valid_time "23:50" (Time_ 23 50 0)
  /\ exists r,
       returned (add_time "23:50" 0 20 0) = Some r
       /\ returned (subtract_time r 0 20 0) = Some (clock 23 50 0).
Proof.
  split; [reflexivity |].
  apply (subtract_undoes_add "23:50" (Time_ 23 50 0) 0 20 0);
    [reflexivity | vm_compute; split; discriminate].
Defined.

(** ** time_difference and calculate_duration, further *)

(** X8: for two valid times that differ, the duration from the first to
    the second and the duration from the second to the first are both
    positive and add up to 24 hours. *)
Theorem durations_complement (a b : string) (ta tb : Time) :
  valid_time a ta -> valid_time b tb -> secs_of ta <> secs_of tb ->
  exists d1 d2,
    returned (calculate_duration a b) = Some (clock_of_seconds d1)
    /\ returned (calculate_duration b a) = Some (clock_of_seconds d2)
    /\ 0 < d1 /\ 0 < d2 /\ d1 + d2 = 86400.
Proof.
  intros Ha Hb Hne.
  pose proof (secs_of_bounds a ta Ha). pose proof (secs_of_bounds b tb Hb).
  exists ((secs_of tb - secs_of ta) mod 86400),
         ((secs_of ta - secs_of tb) mod 86400).
  rewrite !returned_calculate_duration.
  unfold valid_time in Ha, Hb. rewrite Ha, Hb.
  rewrite !render_seconds_clock by euclid.
  repeat split; try reflexivity; euclid.
Qed.

Lemma durations_complement_witness :
  valid_time "22:00" (Time_ 22 0 0) /\ valid_time "02:00" (Time_ 2 0 0)
  /\ exists d1 d2,
       returned (calculate_duration "22:00" "02:00")
       = Some (clock_of_seconds d1)
       /\ returned (calculate_duration "02:00" "22:00")
          = Some (clock_of_seconds d2)
       /\ 0 < d1 /\ 0 < d2 /\ d1 + d2 = 86400.
Proof.
  split; [reflexivity |]. split; [reflexivity |].
  apply (durations_complement "22:00" "02:00" (Time_ 22 0 0) (Time_ 2 0 0));
    [reflexivity | reflexivity | discriminate].
Defined.

(** X9: the duration that [calculate_duration] returns is itself a valid
    time text, and adding its hours, minutes and seconds to the start with
    [add_time] returns the end in zero-padded HH:MM:SS form. *)
Theorem start_plus_duration (a b : string) (ta tb : Time) :
  valid_time a ta -> valid_time b tb ->
  exists r td,
    returned (calculate_duration a b) = Some r
    /\ valid_time r td
    /\ returned (add_time a (hours td) (minutes td) (seconds td))
       = Some (clock (hours tb) (minutes tb) (seconds tb)).
Proof.
  intros Ha Hb.
  pose proof (secs_of_bounds a ta Ha) as Ba.
  pose proof (secs_of_bounds b tb Hb) as Bb.
  set (d := (secs_of tb - secs_of ta) mod 86400).
  assert (Hd : 0 <= d < 86400) by (unfold d; euclid).
  exists (clock_of_seconds d),
         (Time_ (d / 3600) (d mod 3600 / 60) (d mod 60)).
  split; [| split].
  - rewrite returned_calculate_duration.
    unfold valid_time in Ha, Hb. rewrite Ha, Hb. fold d.
    f_equal. apply render_seconds_clock, Hd.
  - apply valid_time_clock_of_seconds, Hd.
  - unfold Time_. cbn [hours minutes seconds].
    assert (HD : duration (d / 3600) (d mod 3600 / 60) (d mod 60) = d)
      by (unfold duration; euclid).
    rewrite (returned_add_time_in_range a ta _ _ _ Ha).
    + rewrite HD.
      replace ((secs_of ta + d) mod 86400) with (secs_of tb)
        by (unfold d; euclid).
      f_equal. apply (clock_of_secs_of b tb Hb).
    + rewrite HD, anchor_day_val, MAXORDINAL_val. euclid.
Qed.

Lemma start_plus_duration_witness :
  valid_time "22:00" (Time_ 22 0 0) /\ valid_time "02:00" (Time_ 2 0 0)
  /\ exists r td,
       returned (calculate_duration "22:00" "02:00") = Some r
       /\ valid_time r td
       /\ returned (add_time "22:00" (hours td) (minutes td) (seconds td))
          = Some (clock 2 0 0).
Proof.
  split; [reflexivity |]. split; [reflexivity |].
  apply (start_plus_duration "22:00" "02:00" (Time_ 22 0 0) (Time_ 2 0 0));
    reflexivity.
Defined.

(** X10: [time_difference], in either order of its arguments, returns
    what [calculate_duration] returns from the earlier to the later of two
    valid times. *)
Theorem difference_is_forward_duration (a b : string) (ta tb : Time) :
  valid_time a ta -> valid_time b tb -> secs_of ta <= secs_of tb ->
  returned (time_difference a b) = returned (calculate_duration a b)
  /\ returned (time_difference b a) = returned (calculate_duration a b).
Proof.
  intros Ha Hb Hle.
  pose proof (secs_of_bounds a ta Ha). pose proof (secs_of_bounds b tb Hb).
  rewrite !returned_time_difference, returned_calculate_duration.
  unfold valid_time in Ha, Hb. rewrite Ha, Hb.
  replace (Z.abs (secs_of tb - secs_of ta))
    with ((secs_of tb - secs_of ta) mod 86400) by euclid.
  replace (Z.abs (secs_of ta - secs_of tb))
    with ((secs_of tb - secs_of ta) mod 86400) by euclid.
  split; reflexivity.
Qed.

Lemma difference_is_forward_duration_witness :
  valid_time "08:30:15" (Time_ 8 30 15) /\ valid_time "10:00" (Time_ 10 0 0)
  /\ returned (time_difference "10:00" "08:30:15")
     = returned (calculate_duration "08:30:15" "10:00").
Proof.
  split; [reflexivity |]. split; [reflexivity |].
  apply (difference_is_forward_duration "08:30:15" "10:00"
           (Time_ 8 30 15) (Time_ 10 0 0));
    [reflexivity | reflexivity | vm_compute; discriminate].
Defined.

(** ** From standard time to military time and back *)

Lemma hour12_hour24 (hn : Z) (pm : bool) :
  1 <= hn <= 12 ->
  hour12 (hour24 hn pm) = hn
  /\ meridiem (hour24 hn pm) = (if pm then "PM" else "AM").
Proof.
  intros H. unfold hour24, hour12, meridiem.
  destruct pm; cbn [negb andb]; destruct (hn =? 12) eqn:E12; cbn [negb].
  - apply Z.eqb_eq in E12. subst hn. split; reflexivity.
  - apply Z.eqb_neq in E12.
    replace (hn + 12 =? 0) with false by (symmetry; apply Z.eqb_neq; lia).
    replace (hn + 12 =? 12) with false by (symmetry; apply Z.eqb_neq; lia).
    replace (hn + 12 >? 12) with true by (symmetry; apply Z.gtb_lt; lia).
    replace (hn + 12 <? 12) with false by (symmetry; apply Z.ltb_ge; lia).
    split; [lia | reflexivity].
  - apply Z.eqb_eq in E12. subst hn. split; reflexivity.
  - apply Z.eqb_neq in E12.
    replace (hn =? 0) with false by (symmetry; apply Z.eqb_neq; lia).
    replace (hn =? 12) with false by (symmetry; apply Z.eqb_neq; lia).
    replace (hn >? 12) with false
      by (symmetry; rewrite Z.gtb_ltb; apply Z.ltb_ge; lia).
    replace (hn <? 12) with true by (symmetry; apply Z.ltb_lt; lia).
    split; reflexivity.
Qed.

(** X11: on a text the pattern of standard time accepts, whose fields
    stand for the hour [hn], the minute [mn], the seconds [sn] and the
    meridiem [pm], the result of [standard_to_military_time] is a valid
    military time, and [military_to_standard_time] takes it back to the
    same time in the form [h:MM:SS AM] or [h:MM:SS PM]: hour without
    padding, seconds always present, one space and the meridiem in upper
    case. *)
Theorem standard_round_trip
  (s h m x mer : string) (hn mn : Z) (sn : option Z) (pm : bool) :
  standard_form s h m x mer ->
  hour_text hn h -> minute_text mn m -> seconds_text sn x ->
  meridiem_text pm mer ->
  exists r,
    returned (standard_to_military_time s) = Some r
    /\ valid_time r (Time_ (hour24 hn pm) mn (seconds_value sn))
    /\ returned (military_to_standard_time r false)
       = Some (standard_clock hn mn (seconds_value sn) pm).
Proof.
  intros Hf Hh Hm Hx Hmer.
  pose proof (hour24_bounds hn pm (proj1 Hh)) as H24.
  assert (Hmn : 0 <= mn < 60) by (destruct Hm; assumption).
  assert (Hsv : 0 <= seconds_value sn < 60)
    by (destruct sn; cbn in *; [tauto | lia]).
  exists (clock (hour24 hn pm) mn (seconds_value sn)).
  assert (V : valid_time (clock (hour24 hn pm) mn (seconds_value sn))
                (Time_ (hour24 hn pm) mn (seconds_value sn)))
    by (apply valid_time_clock; assumption).
  split; [| split; [exact V |]].
  - rewrite (returned_standard_to_military_time s h m x mer hn mn sn pm)
      by assumption.
    f_equal. apply hms_clock; lia.
  - rewrite (returned_military_to_standard_time _ _ V).
    unfold Time_. cbn [hours minutes seconds].
    destruct (hour12_hour24 hn pm (proj1 Hh)) as [E12 Emer].
    rewrite E12, Emer.
    rewrite str_unpadded by (destruct Hh; lia).
    rewrite !format_02d_two_digits by lia. reflexivity.
Qed.

Lemma standard_round_trip_witness :
  standard_form "01:30pm" "01" "30" "" "pm"
  /\ exists r,
       returned (standard_to_military_time "01:30pm") = Some r
       /\ valid_time r (Time_ (hour24 1 true) 30 (seconds_value None))
       /\ returned (military_to_standard_time r false)
          = Some (standard_clock 1 30 (seconds_value None) true).
Proof.
  assert (F : standard_form "01:30pm" "01" "30" "" "pm")
    by (exists "", "", ""; unfold optional; auto).
  split; [exact F |].
  apply (standard_round_trip "01:30pm" "01" "30" "" "pm" 1 30 None true F).
  - split; [lia | right; reflexivity].
  - split; [lia | reflexivity].
  - reflexivity.
  - reflexivity.
Defined.

(** ** Each conversion refuses the form the other one writes *)

Lemma split_single (sep : ascii) (s : string) :
  no_sep sep s = true -> split sep s = [s].
Proof.
  induction s as [| c s IH]; cbn; [reflexivity |].
  intros H. apply andb_true_iff in H. destruct H as [Hc Hs].
  apply negb_true_iff in Hc. rewrite Hc, (IH Hs). reflexivity.
Qed.

Lemma no_sep_unpadded (n : Z) :
  0 <= n < 100 -> no_sep ":" (unpadded n) = true.
Proof.
  intros H.
  apply (Z_range_forallb (fun n => no_sep ":" (unpadded n)) 100);
    [vm_compute; reflexivity | lia].
Qed.

Lemma seconds_meridiem_field (x : Z) (mer : string) :
  0 <= x < 60 -> mer = "AM" \/ mer = "PM" ->
  no_sep ":" (two_digits x ++ " " ++ mer) = true
  /\ int_opt (two_digits x ++ " " ++ mer) = None.
Proof.
  intros Hx Hmer.
  assert (H : (no_sep ":" (two_digits x ++ " " ++ mer)
               && match int_opt (two_digits x ++ " " ++ mer) with
                  | None => true
                  | Some _ => false
                  end) = true).
  { destruct Hmer; subst mer.
    - apply (Z_range_forallb
               (fun x => no_sep ":" (two_digits x ++ " AM")
                         && match int_opt (two_digits x ++ " AM") with
                            | None => true
                            | Some _ => false
                            end) 60); [vm_compute; reflexivity | lia].
    - apply (Z_range_forallb
               (fun x => no_sep ":" (two_digits x ++ " PM")
                         && match int_opt (two_digits x ++ " PM") with
                            | None => true
                            | Some _ => false
                            end) 60); [vm_compute; reflexivity | lia]. }
  apply andb_true_iff in H. destruct H as [H1 H2]. split; [exact H1 |].
  destruct (int_opt (two_digits x ++ " " ++ mer)); [discriminate | reflexivity].
Qed.

(** X12: the 12-hour text that [military_to_standard_time] returns for a
    valid time is not a military time: [parse_time] refuses it with
    [ValueError], because its last field holds the seconds, a space and
    the meridiem, and [military_to_standard_time] on it returns [None]. *)
Theorem standard_text_is_not_military (s : string) (t : Time) :
  valid_time s t ->
  exists r,
    returned (military_to_standard_time s false) = Some r
    /\ outcome (parse_time_body r) = inl ValueError
    /\ returned (military_to_standard_time r false) = None
    /\ returned (military_to_standard_time r true) = None.
Proof.
  intros H. pose proof (valid_time_bounds s t H) as (Hh & Hm & Hs).
  eexists. split; [apply (returned_military_to_standard_time s t H) |].
  assert (H12 : 1 <= hour12 (hours t) <= 12).
  { unfold hour12.
    destruct (hours t =? 0) eqn:E0; [lia |].
    destruct (hours t =? 12) eqn:E12; [lia |].
    apply Z.eqb_neq in E0, E12.
    destruct (hours t >? 12) eqn:Egt;
      [apply Z.gtb_lt in Egt
      | rewrite Z.gtb_ltb in Egt; apply Z.ltb_ge in Egt]; lia. }
  assert (Hmer : meridiem (hours t) = "AM" \/ meridiem (hours t) = "PM")
    by (unfold meridiem; destruct (hours t <? 12); auto).
  destruct (seconds_meridiem_field (seconds t) (meridiem (hours t)) Hs Hmer)
    as [Hno Hint].
  assert (E : outcome
                (parse_time_body
                   (str (hour12 (hours t)) ++ ":" ++ format_02d (minutes t)
                    ++ ":" ++ format_02d (seconds t) ++ " "
                    ++ meridiem (hours t))) = inl ValueError).
  { rewrite parse_time_cases.
    rewrite str_unpadded, !format_02d_two_digits by lia.
    change (unpadded (hour12 (hours t)) ++ ":" ++ two_digits (minutes t)
            ++ ":" ++ two_digits (seconds t) ++ " " ++ meridiem (hours t))
      with (unpadded (hour12 (hours t))
            ++ String ":" (two_digits (minutes t) ++ ":"
                           ++ two_digits (seconds t) ++ " "
                           ++ meridiem (hours t))).
    rewrite split_app, (split_single ":" (unpadded (hour12 (hours t))))
      by (apply no_sep_unpadded; lia).
    rewrite split_two_digits by lia.
    rewrite (split_single ":" _ Hno). cbn [app].
    rewrite int_opt_unpadded, int_opt_two_digits, Hint by lia.
    reflexivity. }
  split; [exact E |].
  unfold military_to_standard_time.
  rewrite !returned_validate,
    !(outcome_military_invalid _ ValueError _ E).
  split; reflexivity.
Qed.

Lemma standard_text_is_not_military_witness :
  valid_time "13:30:00" (Time_ 13 30 0)
  /\ exists r,
       returned (military_to_standard_time "13:30:00" false) = Some r
       /\ outcome (parse_time_body r) = inl ValueError
       /\ returned (military_to_standard_time r false) = None
       /\ returned (military_to_standard_time r true) = None.
Proof.
  split; [reflexivity |].
  apply (standard_text_is_not_military "13:30:00" (Time_ 13 30 0)).
  reflexivity.
Defined.

Lemma clock_refused_table :
  forallb (fun h =>
    forallb (fun m =>
      forallb (fun x =>
        match re_match true standard_time_pattern (clock h m x) with
        | None => true
        | Some _ => false
        end) (range_Z 0 60)) (range_Z 0 60)) (range_Z 0 24) = true.
Proof. vm_compute. reflexivity. Qed.

(** X13: [standard_to_military_time] refuses every zero-padded HH:MM:SS
    text of a military time, the form of its own results, with
    [TimeFormatError]: a text with no meridiem is never accepted. *)
Theorem military_text_is_not_standard (h m x : Z) :
  0 <= h < 24 -> 0 <= m < 60 -> 0 <= x < 60 ->
  outcome (standard_to_military_time_body (clock h m x))
  = inl (TimeFormatError invalid_standard_msg)
  /\ returned (standard_to_military_time (clock h m x)) = None.
Proof.
  intros Hh Hm Hx.
  pose proof clock_refused_table as T. rewrite forallb_forall in T.
  specialize (T h (proj2 (in_range_Z h 0 24) ltac:(cbn; lia))).
  rewrite forallb_forall in T.
  specialize (T m (proj2 (in_range_Z m 0 60) ltac:(cbn; lia))).
  rewrite forallb_forall in T.
  specialize (T x (proj2 (in_range_Z x 0 60) ltac:(cbn; lia))).
  assert (E : outcome (standard_to_military_time_body (clock h m x))
              = inl (TimeFormatError invalid_standard_msg)).
  { unfold standard_to_military_time_body.
    destruct (re_match true standard_time_pattern (clock h m x));
      [discriminate | reflexivity]. }
  split; [exact E |].
  unfold standard_to_military_time. rewrite returned_validate, E.
  reflexivity.
Qed.

Lemma military_text_is_not_standard_witness :
  0 <= 13 < 24 /\ 0 <= 30 < 60 /\ 0 <= 0 < 60
  /\ returned (standard_to_military_time (clock 13 30 0)) = None.
Proof.
  split; [lia |]. split; [lia |]. split; [lia |].
  apply (military_text_is_not_standard 13 30 0); lia.
Defined.

(** ** The results are valid times *)

Lemma instant_fields (total : Z) (dt : datetime) :
  instant anchor_day total = inr dt ->
  0 <= dt_hour dt < 24 /\ 0 <= dt_minute dt < 60 /\ 0 <= dt_second dt < 60.
Proof.
  unfold instant, SECONDS_PER_DAY.
  generalize anchor_day MAXORDINAL. intros a M.
  destruct ((1 <=? a + total / 86400) && (a + total / 86400 <=? M));
    [| discriminate].
  intros [= <-]. cbn [dt_hour dt_minute dt_second].
  set (sod := total mod 86400).
  assert (0 <= sod < 86400) by (unfold sod; apply Z.mod_pos_bound; lia).
  clearbody sod. euclid.
Qed.

Lemma valid_hms (h m x : Z) :
  0 <= h < 24 -> 0 <= m < 60 -> 0 <= x < 60 ->
  valid_time (hms h m x) (Time_ h m x).
Proof.
  intros Hh Hm Hx. rewrite hms_clock by lia.
  apply valid_time_clock; assumption.
Qed.

Lemma valid_render_seconds (d : Z) :
  0 <= d < 86400 -> exists t, valid_time (render_seconds d) t.
Proof.
  intros H. rewrite render_seconds_clock by assumption.
  eexists. apply valid_time_clock_of_seconds, H.
Qed.

Lemma returned_standard_valid (s r : string) :
  returned (standard_to_military_time s) = Some r ->
  exists t, valid_time r t.
Proof.
  intros H. pose proof H as H0.
  apply (outcome_of_returned "standard_to_military_time") in H.
  unfold standard_to_military_time_body in H.
  destruct (re_match true standard_time_pattern s) as [g |] eqn:E;
    [| discriminate].
  destruct (standard_match_accepted s g E)
    as (h & m & x & mer & hn & mn & sn & pm & Hf & Hh & Hm & Hx & Hmer).
  rewrite (returned_standard_to_military_time s h m x mer hn mn sn pm
             Hf Hh Hm Hx Hmer) in H0.
  injection H0 as <-. eexists. apply valid_hms.
  - apply hour24_bounds, Hh.
  - apply Hm.
  - destruct sn; cbn in *; [tauto | lia].
Qed.

(** X14: every text that [add_time], [subtract_time], [time_difference],
    [calculate_duration], [standard_to_military_time] or
    [military_to_standard_time] with [use_24h] returns is a valid military
    time, which [parse_time] accepts: the results can be given to these
    functions again. *)
Theorem results_are_valid_times
  (s1 s2 r : string) (hrs mins secs : Z) :
  returned (add_time s1 hrs mins secs) = Some r
  \/ returned (subtract_time s1 hrs mins secs) = Some r
  \/ returned (time_difference s1 s2) = Some r
  \/ returned (calculate_duration s1 s2) = Some r
  \/ returned (standard_to_military_time s1) = Some r
  \/ returned (military_to_standard_time s1 true) = Some r ->
  exists t, valid_time r t.
Proof.
  intros [H | [H | [H | [H | [H | H]]]]].
  - rewrite returned_add_time in H.
    destruct (outcome (parse_time_body s1)) as [e | t]; [discriminate |].
    destruct (instant anchor_day _) as [e | dt] eqn:E; [discriminate |].
    injection H as <-. destruct (instant_fields _ _ E) as (Hh & Hm & Hs).
    eexists. apply valid_hms; assumption.
  - rewrite returned_subtract_time in H.
    destruct (outcome (parse_time_body s1)) as [e | t]; [discriminate |].
    destruct (instant anchor_day _) as [e | dt] eqn:E; [discriminate |].
    injection H as <-. destruct (instant_fields _ _ E) as (Hh & Hm & Hs).
    eexists. apply valid_hms; assumption.
  - rewrite returned_time_difference in H.
    destruct (outcome (parse_time_body s1)) as [e | t1] eqn:E1;
      [discriminate |].
    destruct (outcome (parse_time_body s2)) as [e | t2] eqn:E2;
      [discriminate |].
    injection H as <-.
    pose proof (secs_of_bounds s1 t1 E1). pose proof (secs_of_bounds s2 t2 E2).
    apply valid_render_seconds. lia.
  - rewrite returned_calculate_duration in H.
    destruct (outcome (parse_time_body s1)) as [e | t1] eqn:E1;
      [discriminate |].
    destruct (outcome (parse_time_body s2)) as [e | t2] eqn:E2;
      [discriminate |].
    injection H as <-. apply valid_render_seconds. euclid.
  - exact (returned_standard_valid s1 r H).
  - destruct (outcome (parse_time_body s1)) as [e | t] eqn:E.
    + unfold military_to_standard_time in H.
      rewrite returned_validate, (outcome_military_invalid s1 e true E) in H.
      discriminate.
    + rewrite (returned_use_24h s1 t E) in H. injection H as <-.
      pose proof (valid_time_bounds s1 t E) as (Hh & Hm & Hs).
      eexists. apply valid_time_clock; assumption.
Qed.

Lemma results_are_valid_times_witness :
  returned (add_time "23:50" 0 20 0) = Some "00:10:00"
  /\ exists t, valid_time "00:10:00" t.
Proof.
  split; [reflexivity |].
  apply (results_are_valid_times "23:50" "" "00:10:00" 0 20 0).
  left. reflexivity.
Defined.
